(** * portfolio_chatbot.py: prompt assembly and turn recording

    A shallow embedding of [portfolio_chatbot.py].  The knowledge document is
    whatever [json.load] returns, so the program's data are Python values and
    every operation on them can raise; both are kept.

    Conventions of the embedding:
    - a Python [str] is a Rocq [string], one [ascii] per character (code
      points 0 to 255).  The case tables behind [str.title] are the ASCII
      ones: Python's are Unicode's, which send some characters above 127 out
      of this range or to two characters, so [title] agrees with Python on
      ASCII text only, and every statement that rests on letter case is
      stated for ASCII keys ([is_ascii]);
    - a Python [dict] is its list of items in insertion order (keys are
      unique in a dict that [json.load] built);
    - JSON numbers with a fraction or an exponent ([float]) are not
      represented;
    - Streamlit widgets, the clock, the knowledge file and the completion
      client are inputs of one script run ([run]); [st.session_state] and the
      calls that leave the process are the state threaded through [main]. *)

From Stdlib Require Import String Ascii List ZArith Bool Arith.
From Stdlib Require Import DecimalString.
Import ListNotations.
Local Open Scope list_scope.
Local Open Scope string_scope.
Set Warnings "-register-all".

(* ================================================================== *)
(** * Python values and exceptions *)

Inductive value : Type :=
| VNone
| VBool (b : bool)
| VInt (n : Z)
| VStr (s : string)
| VList (l : list value)
| VDict (d : list (string * value)).

Inductive exn : Type :=
| AttributeError
| TypeError
| JSONDecodeError
| APIError (msg : string).

Inductive result (A : Type) : Type :=
| Ok (a : A)
| Raise (e : exn).
Arguments Ok {A} a.
Arguments Raise {A} e.

Definition rbind {A B} (m : result A) (k : A -> result B) : result B :=
  match m with
  | Ok a => k a
  | Raise e => Raise e
  end.

Declare Scope py_scope.
Delimit Scope py_scope with py.
Notation "x <- m ;; k" := (rbind m (fun x => k))
  (at level 61, m at next level, right associativity) : py_scope.
Local Open Scope py_scope.

(** [xs.append(x)] *)
Definition py_append {A} (xs : list A) (x : A) : list A := (xs ++ [x])%list.

(** [for x in xs: ys.append(f(x))], stopping at the first exception. *)
Fixpoint map_result {A B} (f : A -> result B) (xs : list A) : result (list B) :=
  match xs with
  | [] => Ok []
  | x :: rest =>
      y <- f x ;;
      ys <- map_result f rest ;;
      Ok (y :: ys)
  end.

(* ------------------------------------------------------------------ *)
(** ** Characters and text *)

Definition newline : ascii := ascii_of_nat 10.
Definition nl : string := String newline EmptyString.
Definition dquote : ascii := ascii_of_nat 34.
Definition squote : ascii := ascii_of_nat 39.
Definition backslash : ascii := ascii_of_nat 92.

Definition is_upper (c : ascii) : bool :=
  ((65 <=? nat_of_ascii c) && (nat_of_ascii c <=? 90))%nat.
Definition is_lower (c : ascii) : bool :=
  ((97 <=? nat_of_ascii c) && (nat_of_ascii c <=? 122))%nat.
Definition is_cased (c : ascii) : bool := is_upper c || is_lower c.
Definition to_upper (c : ascii) : ascii :=
  if is_lower c then ascii_of_nat (nat_of_ascii c - 32) else c.
Definition to_lower (c : ascii) : ascii :=
  if is_upper c then ascii_of_nat (nat_of_ascii c + 32) else c.

Fixpoint str_map (f : ascii -> ascii) (s : string) : string :=
  match s with
  | EmptyString => EmptyString
  | String c rest => String (f c) (str_map f rest)
  end.

(** [s.lower()] on ASCII text (characters above 127 are left as they are,
    which is not what Python does with cased ones). *)
Definition lower (s : string) : string := str_map to_lower s.

(** [s.replace(old, new)] for one-character [old] and [new]. *)
Definition replace (old new : ascii) (s : string) : string :=
  str_map (fun c => if Ascii.eqb c old then new else c) s.

(** [s.title()] on ASCII text: a cased character is upper-cased when the
    character before it is not cased, and lower-cased when it is.  Only the
    ASCII letters count as cased here. *)
Fixpoint title_from (previous_is_cased : bool) (s : string) : string :=
  match s with
  | EmptyString => EmptyString
  | String c rest =>
      String (if previous_is_cased then to_lower c else to_upper c)
             (title_from (is_cased c) rest)
  end.
Definition title (s : string) : string := title_from false s.

(** [sub in s] on text. *)
Fixpoint py_in (sub s : string) : bool :=
  String.prefix sub s ||
  match s with
  | EmptyString => false
  | String _ rest => py_in sub rest
  end.

(** [s.split("\n")] *)
Fixpoint split_lines (s : string) : list string :=
  match s with
  | EmptyString => [EmptyString]
  | String c rest =>
      if Ascii.eqb c newline then EmptyString :: split_lines rest
      else
        match split_lines rest with
        | first :: others => String c first :: others
        | [] => [String c EmptyString]
        end
  end.

(** The proposition [py_in] decides. *)
Definition contains (s sub : string) : Prop :=
  exists pre post, s = pre ++ sub ++ post.

(* ------------------------------------------------------------------ *)
(** ** [repr] and [str] *)

Definition hex_digit (n : nat) : ascii :=
  nth n ["0"; "1"; "2"; "3"; "4"; "5"; "6"; "7"; "8"; "9";
         "a"; "b"; "c"; "d"; "e"; "f"]%char "0"%char.

(** [c in s] for one character. *)
Fixpoint has_char (c : ascii) (s : string) : bool :=
  match s with
  | EmptyString => false
  | String x rest => Ascii.eqb x c || has_char c rest
  end.

(** One character inside [repr] of a text: the quote and the backslash are
    escaped, and so is every character that is not printable (below 32, 127
    to 160, and 173 in this range). *)
Definition repr_char (quote c : ascii) : string :=
  let n := nat_of_ascii c in
  if Ascii.eqb c quote || Ascii.eqb c backslash then String backslash (String c "")
  else if (n =? 9)%nat then String backslash "t"
  else if (n =? 10)%nat then String backslash "n"
  else if (n =? 13)%nat then String backslash "r"
  else if ((n <? 32) || ((127 <=? n) && (n <=? 160)) || (n =? 173))%nat then
    String backslash (String "x" (String (hex_digit (n / 16)) (String (hex_digit (n mod 16)) "")))
  else String c "".

Definition repr_str (s : string) : string :=
  let quote := if has_char squote s && negb (has_char dquote s) then dquote else squote in
  String quote (String.concat "" (map (repr_char quote) (list_ascii_of_string s)))
  ++ String quote "".

Definition repr_int (n : Z) : string := NilZero.string_of_int (Z.to_int n).

Fixpoint py_repr (v : value) : string :=
  match v with
  | VNone => "None"
  | VBool true => "True"
  | VBool false => "False"
  | VInt n => repr_int n
  | VStr s => repr_str s
  | VList l => "[" ++ String.concat ", " (map py_repr l) ++ "]"
  | VDict d =>
      "{" ++ String.concat ", "
               (map (fun kv => repr_str (fst kv) ++ ": " ++ py_repr (snd kv)) d)
          ++ "}"
  end.

(** [str(v)], which is what an f-string field [{v}] renders. *)
Definition py_str (v : value) : string :=
  match v with
  | VStr s => s
  | _ => py_repr v
  end.

(* ------------------------------------------------------------------ *)
(** ** Truth, equality, lookup and iteration *)

(** [bool(v)], as [if v:] and [not v] test it. *)
Definition py_truthy (v : value) : bool :=
  match v with
  | VNone => false
  | VBool b => b
  | VInt n => negb (n =? 0)%Z
  | VStr s => negb (s =? "")
  | VList l => match l with [] => false | _ => true end
  | VDict d => match d with [] => false | _ => true end
  end.

Fixpoint lookup (k : string) (d : list (string * value)) : option value :=
  match d with
  | [] => None
  | (k', v) :: rest => if k' =? k then Some v else lookup k rest
  end.

(** [a == b].  [bool] is a subclass of [int]; dicts compare as mappings,
    whatever their order. *)
Fixpoint py_eq (a b : value) : bool :=
  match a, b with
  | VNone, VNone => true
  | VBool x, VBool y => Bool.eqb x y
  | VBool x, VInt n => (n =? (if x then 1 else 0))%Z
  | VInt n, VBool x => (n =? (if x then 1 else 0))%Z
  | VInt n, VInt m => (n =? m)%Z
  | VStr s, VStr t => s =? t
  | VList xs, VList ys =>
      (fix all2 (xs ys : list value) {struct xs} : bool :=
         match xs, ys with
         | [], [] => true
         | x :: xs', y :: ys' => py_eq x y && all2 xs' ys'
         | _, _ => false
         end) xs ys
  | VDict xs, VDict ys =>
      (length xs =? length ys)%nat &&
      (fix sub (xs : list (string * value)) {struct xs} : bool :=
         match xs with
         | [] => true
         | (k, x) :: xs' =>
             match lookup k ys with
             | Some y => py_eq x y && sub xs'
             | None => false
             end
         end) xs
  | _, _ => false
  end.

Definition get_or (d : list (string * value)) (k : string) (default : value) : value :=
  match lookup k d with
  | Some x => x
  | None => default
  end.

(** [v.get(k, default)]; only a dict has [get]. *)
Definition py_get (v : value) (k : string) (default : value) : result value :=
  match v with
  | VDict d => Ok (get_or d k default)
  | _ => Raise AttributeError
  end.

(** [d.items()]; only a dict has [items]. *)
Definition py_items (v : value) : result (list (string * value)) :=
  match v with
  | VDict d => Ok d
  | _ => Raise AttributeError
  end.

(** The elements [for x in v] visits: a list's elements, a dict's keys, the
    characters of a text. *)
Definition py_iter (v : value) : result (list value) :=
  match v with
  | VList l => Ok l
  | VDict d => Ok (map (fun kv => VStr (fst kv)) d)
  | VStr s => Ok (map (fun c => VStr (String c "")) (list_ascii_of_string s))
  | _ => Raise TypeError
  end.

Definition expect_str (v : value) : result string :=
  match v with
  | VStr s => Ok s
  | _ => Raise TypeError
  end.

(** [sep.join(v)]: [v] must be iterable and every element a [str]. *)
Definition str_join (sep : string) (v : value) : result string :=
  xs <- py_iter v ;;
  ss <- map_result expect_str xs ;;
  Ok (String.concat sep ss).

(* ================================================================== *)
(** * The program *)

(** ** [format_skills] *)

(** [category.replace('_',' ').title()] *)
Definition humanize (category : string) : string :=
  title (replace "_" " " category).

(** The body of the [for category, skills in skills_dict.items()] loop,
    with [lines] as its accumulator. *)
Fixpoint format_skills_loop (items : list (string * value)) (lines : list string)
  : result (list string) :=
  match items with
  | [] => Ok lines
  | (category, skills) :: rest =>
      joined <- str_join ", " skills ;;
      format_skills_loop rest (py_append lines (humanize category ++ ": " ++ joined))
  end.

Definition format_skills (skills_dict : value) : result string :=
  items <- py_items skills_dict ;;
  lines <- format_skills_loop items [] ;;
  Ok (String.concat nl lines).

(* ------------------------------------------------------------------ *)
(** ** [create_system_prompt] *)

(** The three f-string templates, line by line as the source lays them out
    (a triple-quoted literal starts and ends with a line break here). *)
Definition base_prompt_text
  (name summary education current_status goal skills : string) : string :=
  String.concat nl
    [ "";
      "You are an AI Portfolio Assistant representing " ++ name ++ ".";
      "";
      "Profile Summary:";
      summary;
      "";
      "Education: " ++ education;
      "Current Status: " ++ current_status;
      "Career Goal: " ++ goal;
      "";
      "Skills:";
      skills;
      "";
      "Rules:";
      "- Answer like a real interview candidate";
      "- Be confident, clear, and honest";
      "- Do NOT invent information";
      "- Use simple English or Hinglish";
      "" ].

Definition focus_text
  (name type category problem solution tools outcome : string) : string :=
  String.concat nl
    [ "";
      "Selected Project (Explain in detail):";
      "";
      "Project Name: " ++ name;
      "Type: " ++ type;
      "Category: " ++ category;
      "";
      "Problem:";
      problem;
      "";
      "Solution:";
      solution;
      "";
      "Tools Used:";
      tools;
      "";
      "Outcome:";
      outcome;
      "";
      "Instructions:";
      "- Use STAR method if possible";
      "- Explain business impact";
      "- Answer follow-up technical questions";
      "" ].

Definition broad_text (project_list : string) : string :=
  String.concat nl
    [ "";
      "Projects:";
      project_list;
      "";
      "Instructions:";
      "- Answer about skills, projects, resume, career goals";
      "- Suggest selecting a project for deep explanation";
      "" ].

(** [f"- {p.get('name')} ({p.get('type')})"] *)
Definition project_bullet (p : value) : result string :=
  name <- py_get p "name" VNone ;;
  type <- py_get p "type" VNone ;;
  Ok ("- " ++ py_str name ++ " (" ++ py_str type ++ ")").

Definition create_system_prompt (portfolio selected_project : value) : result string :=
  name <- py_get portfolio "name" VNone ;;
  summary <- py_get portfolio "summary" VNone ;;
  education <- py_get portfolio "education" VNone ;;
  current_status <- py_get portfolio "current_status" VNone ;;
  goal <- py_get portfolio "goal" VNone ;;
  skills_dict <- py_get portfolio "skills" (VDict []) ;;
  skills <- format_skills skills_dict ;;
  let base_prompt :=
    base_prompt_text (py_str name) (py_str summary) (py_str education)
                     (py_str current_status) (py_str goal) skills in
  if py_truthy selected_project then
    pname <- py_get selected_project "name" VNone ;;
    type <- py_get selected_project "type" VNone ;;
    category <- py_get selected_project "category" VNone ;;
    problem <- py_get selected_project "problem" VNone ;;
    solution <- py_get selected_project "solution" VNone ;;
    tools <- py_get selected_project "tools" VNone ;;
    outcome <- py_get selected_project "outcome" VNone ;;
    Ok (base_prompt ++
        focus_text (py_str pname) (py_str type) (py_str category) (py_str problem)
                   (py_str solution) (py_str tools) (py_str outcome))
  else
    projects <- py_get portfolio "projects" (VList []) ;;
    ps <- py_iter projects ;;
    bullets <- map_result project_bullet ps ;;
    Ok (base_prompt ++ broad_text (String.concat nl bullets)).

(* ------------------------------------------------------------------ *)
(** ** Session state, one script run, and the monad of [main] *)

(** An entry of [st.session_state.chat_history]. *)
Record message : Type := Message {
  role : string;
  content : string;
  time : string
}.

(** An entry of the [input] list sent to the completion client. *)
Record request_message : Type := RequestMessage {
  req_role : string;
  req_content : string
}.

(** [st.session_state]: a key is absent until the script sets it. *)
Record session_state : Type := SessionState {
  chat_history : option (list message);
  selected_project : option value
}.

(** What persists or leaves the process: the session state, the texts shown
    with [st.error], and the requests issued to the completion client. *)
Record world : Type := World {
  session : session_state;
  errors_shown : list string;
  requests : list (list request_message)
}.

(** The knowledge file as [load_portfolio] meets it. *)
Inductive document : Type :=
| Missing
| NotJson
| Json (v : value).

(** What the surroundings answer during one run of the script. *)
Record run : Type := Run {
  knowledge_file : document;
  selectbox : list value -> value;
  chat_input : option string;
  now : nat -> string;
  responses_create : list request_message -> result string
}.

Definition M (A : Type) : Type := world -> result A * world.

Definition ret {A} (a : A) : M A := fun w => (Ok a, w).
Definition raise {A} (e : exn) : M A := fun w => (Raise e, w).
Definition bind {A B} (m : M A) (k : A -> M B) : M B :=
  fun w =>
    match m w with
    | (Ok a, w') => k a w'
    | (Raise e, w') => (Raise e, w')
    end.
Definition lift {A} (r : result A) : M A := fun w => (r, w).

Notation "x <~ m ;; k" := (bind m (fun x => k))
  (at level 61, m at next level, right associativity) : py_scope.

Definition get_session : M session_state := fun w => (Ok (session w), w).
Definition put_session (s : session_state) : M unit :=
  fun w => (Ok tt, World s (errors_shown w) (requests w)).
Definition st_error (msg : string) : M unit :=
  fun w => (Ok tt, World (session w) (py_append (errors_shown w) msg) (requests w)).

(** [client.responses.create(model=..., input=messages, ...).output_text]:
    the request leaves the process, then the client answers or raises. *)
Definition client_responses_create (r : run) (messages : list request_message) : M string :=
  fun w =>
    (responses_create r messages,
     World (session w) (errors_shown w) (py_append (requests w) messages)).

(* ------------------------------------------------------------------ *)
(** ** [load_portfolio] *)

Definition load_portfolio (r : run) : M value :=
  match knowledge_file r with
  | Missing =>
      _ <~ st_error "portfolio_knowledge.json not found" ;;
      ret (VDict [])
  | NotJson => raise JSONDecodeError
  | Json v => ret v
  end.

(* ------------------------------------------------------------------ *)
(** ** [get_ai_response] *)

(** The [for p in portfolio.get("projects", [])] loop with its [break]. *)
Fixpoint find_project (selected : value) (ps : list value) : result value :=
  match ps with
  | [] => Ok VNone
  | p :: rest =>
      name <- py_get p "name" VNone ;;
      if py_eq name selected then Ok p else find_project selected rest
  end.

(** Lines 101-107: [selected] is [st.session_state.get("selected_project")]. *)
Definition resolve_focus (selected portfolio : value) : result value :=
  if py_truthy selected then
    projects <- py_get portfolio "projects" (VList []) ;;
    ps <- py_iter projects ;;
    find_project selected ps
  else Ok VNone.

Definition strip_time (msg : message) : request_message :=
  RequestMessage (role msg) (content msg).

(** Lines 109-114. *)
Definition build_messages (system_prompt user_message : string)
  (chat_history : list message) : list request_message :=
  ([RequestMessage "system" system_prompt]
     ++ map strip_time chat_history
     ++ [RequestMessage "user" user_message])%list.

Definition session_get_selected (s : session_state) : value :=
  match selected_project s with
  | Some v => v
  | None => VNone
  end.

Definition get_ai_response (r : run) (user_message : string)
  (chat_history : list message) (portfolio : value) : M string :=
  s <~ get_session ;;
  focus <~ lift (resolve_focus (session_get_selected s) portfolio) ;;
  system_prompt <~ lift (create_system_prompt portfolio focus) ;;
  client_responses_create r (build_messages system_prompt user_message chat_history).

(* ------------------------------------------------------------------ *)
(** ** [main] *)

Definition no_project_selected : string := "-- No Project Selected --".

(** How a run of the script ends when nothing is raised: it returns, or
    [st.rerun()] asks for the next run. *)
Inductive outcome : Type :=
| Returned
| Rerun.

(** [if "chat_history" not in st.session_state: ...] and the same for
    ["selected_project"]. *)
Definition init_session : M unit :=
  s <~ get_session ;;
  put_session
    (SessionState
       (match chat_history s with Some h => Some h | None => Some [] end)
       (match selected_project s with Some v => Some v | None => Some VNone end)).

(** [[p.get("name") for p in portfolio.get("projects", [])]] *)
Definition project_names (portfolio : value) : result (list value) :=
  projects <- py_get portfolio "projects" (VList []) ;;
  ps <- py_iter projects ;;
  map_result (fun p => py_get p "name" VNone) ps.

Definition set_selected_project (v : value) : M unit :=
  s <~ get_session ;;
  put_session (SessionState (chat_history s) (Some v)).

(** [st.session_state.chat_history], an attribute error when the key is not set. *)
Definition get_chat_history : M (list message) :=
  s <~ get_session ;;
  match chat_history s with
  | Some h => ret h
  | None => raise AttributeError
  end.

(** [st.session_state.chat_history.append(msg)] *)
Definition append_message (msg : message) : M unit :=
  h <~ get_chat_history ;;
  s <~ get_session ;;
  put_session (SessionState (Some (py_append h msg)) (selected_project s)).

(** One run of the script.  The calls that only draw the page ([st.title],
    [st.markdown], [st.info], the replay of the history) are left out. *)
Definition main (r : run) : M outcome :=
  portfolio <~ load_portfolio r ;;
  if negb (py_truthy portfolio) then ret Returned
  else
    _ <~ init_session ;;
    names <~ lift (project_names portfolio) ;;
    let selected := selectbox r (VStr no_project_selected :: names) in
    _ <~ set_selected_project
           (if py_eq selected (VStr no_project_selected) then VNone else selected) ;;
    match chat_input r with
    | Some user_input =>
        if py_truthy (VStr user_input) then
          _ <~ append_message (Message "user" user_input (now r 0)) ;;
          h <~ get_chat_history ;;
          reply <~ get_ai_response r user_input (removelast h) portfolio ;;
          _ <~ append_message (Message "assistant" reply (now r 1)) ;;
          ret Rerun
        else ret Returned
    | None => ret Returned
    end.

(* ================================================================== *)
(** * Well-shaped knowledge documents *)

(** A skills mapping as the data model has it: category to skill names. *)
Definition skills_value (sk : list (string * list string)) : value :=
  VDict (map (fun kv => (fst kv, VList (map VStr (snd kv)))) sk).

(** The line the spec asks for: [<Category>: <comma-joined skill list>]. *)
Definition skills_line (kv : string * list string) : string :=
  humanize (fst kv) ++ ": " ++ String.concat ", " (snd kv).

(** What an f-string shows for key [k] of dict [d]. *)
Definition field (d : list (string * value)) (k : string) : string :=
  py_str (get_or d k VNone).

(** [p.get("name")] of a project record. *)
Definition name_of (p : list (string * value)) : value := get_or p "name" VNone.

(** The bullet of one project. *)
Definition bullet_of (p : list (string * value)) : string :=
  "- " ++ field p "name" ++ " (" ++ field p "type" ++ ")".

(** [skills] is absent or a mapping from categories to lists of names. *)
Definition skills_ok (d : list (string * value)) : Prop :=
  lookup "skills" d = None \/
  exists sk, lookup "skills" d = Some (skills_value sk).

(** [projects] holds exactly the project records [ps] (absent: none). *)
Definition projects_are (d : list (string * value)) (ps : list (list (string * value))) : Prop :=
  get_or d "projects" (VList []) = VList (map VDict ps).

(** [d'] is [d] up to its [projects] entry. *)
Definition same_outside_projects (d d' : list (string * value)) : Prop :=
  forall k, k <> "projects" -> lookup k d' = lookup k d.

(** Two project records with the same [name] and [type] entries. *)
Definition same_name_type (p p' : list (string * value)) : Prop :=
  lookup "name" p = lookup "name" p' /\ lookup "type" p = lookup "type" p'.

(** The history a run starts from: empty when the key is not set yet. *)
Definition history_of (w : world) : list message :=
  match chat_history (session w) with
  | Some h => h
  | None => []
  end.

(** What [main] stores as [selected_project] when the project names are
    [names]: the select box's answer, or [None] for its first option. *)
Definition selection (r : run) (names : list value) : value :=
  let selected := selectbox r (VStr no_project_selected :: names) in
  if py_eq selected (VStr no_project_selected) then VNone else selected.

(** Lines 101-109 as one step: the focus is resolved, then the prompt built. *)
Definition system_prompt_for (selected portfolio : value) : result string :=
  focus <- resolve_focus selected portfolio ;;
  create_system_prompt portfolio focus.

(** The world in which [get_ai_response] is called during a turn. *)
Definition world_at_call (r : run) (w : world) (names : list value) (user_input : string)
  : world :=
  World (SessionState
           (Some (py_append (history_of w) (Message "user" user_input (now r 0))))
           (Some (selection r names)))
        (errors_shown w) (requests w).

(** ** Sample documents *)

Definition churn_project : list (string * value) :=
  [("name", VStr "Customer Churn Prediction");
   ("type", VStr "ML");
   ("category", VStr "Analytics");
   ("problem", VStr "Customer Churn");
   ("solution", VStr "Gradient boosting on usage data");
   ("tools", VStr "Python, scikit-learn");
   ("outcome", VStr "Retention up")].

Definition churn_profile : list (string * value) :=
  [("name", VStr "A");
   ("skills", skills_value [("current_status", ["student"]); ("ml_ops", ["docker"; "git"])]);
   ("projects", VList [VDict churn_project])].

(** The profile of the spec's scenario: [{name:"A", projects:[{name:"X", type:"web"}]}]. *)
Definition scenario_project : list (string * value) :=
  [("name", VStr "X"); ("type", VStr "web")].

Definition scenario_profile : list (string * value) :=
  [("name", VStr "A"); ("projects", VList [VDict scenario_project])].

(** A profile whose first project record has no field at all. *)
Definition blank_first_profile : list (string * value) :=
  [("name", VStr "A"); ("projects", VList [VDict []; VDict scenario_project])].

(** A project whose problem text spells its own bullet. *)
Definition bullet_project : list (string * value) :=
  [("name", VStr "X"); ("type", VStr "web"); ("category", VStr "site");
   ("problem", VStr "- X (web)"); ("solution", VStr "s");
   ("tools", VStr "t"); ("outcome", VStr "o")].

Definition bullet_profile : list (string * value) :=
  [("name", VStr "A"); ("projects", VList [VDict bullet_project])].

(** Two projects share the name [Y]; the first of them is of type [b]. *)
Definition twin_first : list (string * value) :=
  [("name", VStr "Y"); ("type", VStr "b")].

Definition twin_profile : list (string * value) :=
  [("name", VStr "A");
   ("projects", VList [VDict scenario_project; VDict twin_first;
                       VDict [("name", VStr "Y"); ("type", VStr "c")]])].

(** Two projects share the empty name. *)
Definition unnamed_first : list (string * value) :=
  [("name", VStr ""); ("type", VStr "a")].

Definition unnamed_twins_profile : list (string * value) :=
  [("name", VStr "A");
   ("projects", VList [VDict unnamed_first;
                       VDict [("name", VStr ""); ("type", VStr "b")]])].

(** ** Sample runs *)

Definition sample_clock (n : nat) : string :=
  match n with
  | O => "2024-01-01T10:00:00"
  | S _ => "2024-01-01T10:00:05"
  end.

(** The user keeps the select box on its first option and asks a question;
    the client answers. *)
Definition answering_run : run :=
  Run (Json (VDict scenario_profile)) (fun _ => VStr no_project_selected)
      (Some "what projects do you have?") sample_clock (fun _ => Ok "One: X.").

(** The same run with a client that raises. *)
Definition failing_run : run :=
  Run (Json (VDict scenario_profile)) (fun _ => VStr no_project_selected)
      (Some "what projects do you have?") sample_clock
      (fun _ => Raise (APIError "unavailable")).

Definition fresh_world : world := World (SessionState None None) [] [].

(** A session with one earlier turn and the project [X] selected. *)
Definition earlier_turn : list message :=
  [Message "user" "hello" "2024-01-01T09:00:00";
   Message "assistant" "Hi, ask me anything." "2024-01-01T09:00:03"].

Definition earlier_world : world :=
  World (SessionState (Some earlier_turn) (Some (VStr "X"))) [] [].

(** ** Further notions *)

(** Every character of the text is an ASCII one. *)
Fixpoint is_ascii (s : string) : bool :=
  match s with
  | EmptyString => true
  | String c rest => (nat_of_ascii c <? 128)%nat && is_ascii rest
  end.

(** The lines of a text: none for the empty text, else the pieces between
    its line breaks. *)
Definition lines_of (s : string) : list string :=
  if s =? "" then [] else split_lines s.

(** What [', '.join(skills)] accepts: a list of texts, a text, or a dict. *)
Definition joinable (v : value) : bool :=
  match v with
  | VList l => forallb (fun x => match x with VStr _ => true | _ => false end) l
  | VStr _ => true
  | VDict _ => true
  | _ => false
  end.

(** The text [', '.join(skills)] gives when it gives one. *)
Definition joined_text (v : value) : string :=
  match str_join ", " v with
  | Ok s => s
  | Raise _ => ""
  end.

(** The line of one item of the skills dict. *)
Definition category_line (kv : string * value) : string :=
  humanize (fst kv) ++ ": " ++ joined_text (snd kv).

(** The characters of a text, each as a text. *)
Definition letters (s : string) : list string :=
  map (fun c => String c "") (list_ascii_of_string s).

(** How a run that takes a turn ends, from the world it starts in. *)
Definition take_turn (r : run) (w : world) (portfolio : value) (names : list value)
  (user_input : string) : result outcome * world :=
  match system_prompt_for (selection r names) portfolio with
  | Raise e => (Raise e, world_at_call r w names user_input)
  | Ok system_prompt =>
      let messages := build_messages system_prompt user_input (history_of w) in
      match responses_create r messages with
      | Raise e =>
          (Raise e,
           World (session (world_at_call r w names user_input))
                 (errors_shown w) (py_append (requests w) messages))
      | Ok reply =>
          (Ok Rerun,
           World (SessionState
                    (Some (py_append
                             (py_append (history_of w)
                                        (Message "user" user_input (now r 0)))
                             (Message "assistant" reply (now r 1))))
                    (Some (selection r names)))
                 (errors_shown w) (py_append (requests w) messages))
      end
  end.

(** Consecutive runs of the script on the session Streamlit keeps. *)
Fixpoint run_script (rs : list run) (w : world) : world :=
  match rs with
  | [] => w
  | r :: rest => run_script rest (snd (main r w))
  end.

(** Every run of the sequence ends with [st.rerun()], a completed turn. *)
Fixpoint all_turns_complete (rs : list run) (w : world) : Prop :=
  match rs with
  | [] => True
  | r :: rest => fst (main r w) = Ok Rerun /\ all_turns_complete rest (snd (main r w))
  end.

(** The roles of [n] completed turns. *)
Fixpoint turn_roles (n : nat) : list string :=
  match n with
  | O => []
  | S k => "user" :: "assistant" :: turn_roles k
  end.

(** A profile with a project named like the select box's first option. *)
Definition sentinel_project : list (string * value) :=
  [("name", VStr "-- No Project Selected --"); ("type", VStr "web")].

Definition sentinel_profile : list (string * value) :=
  [("name", VStr "A"); ("projects", VList [VDict sentinel_project])].

(** The user picks that project and asks about it. *)
Definition sentinel_run : run :=
  Run (Json (VDict sentinel_profile)) (fun _ => VStr "-- No Project Selected --")
      (Some "tell me more") sample_clock (fun _ => Ok "Sure.").

(** JSON values that cannot be iterated: null, a boolean, a number. *)
Definition not_iterable (v : value) : Prop :=
  v = VNone \/ (exists b, v = VBool b) \/ (exists n, v = VInt n).

(** The user picks the project [Y] of [twin_profile] and asks about it. *)
Definition twin_run : run :=
  Run (Json (VDict twin_profile)) (fun _ => VStr "Y")
      (Some "tell me more") sample_clock (fun _ => Ok "Sure.").

(** ** Proof steps *)

(** One [bind] of the script, and the record fields it exposes. *)
Ltac run_bind :=
  unfold bind at 1;
  cbn [session chat_history selected_project errors_shown requests].

(* ================================================================== *)
(** * Text lemmas *)

Lemma sapp_assoc (a b c : string) : (a ++ b) ++ c = a ++ (b ++ c).
Proof. induction a as [|x a IH]; simpl; [reflexivity | now rewrite IH]. Qed.

Lemma sapp_empty_r (a : string) : a ++ "" = a.
Proof. induction a as [|x a IH]; simpl; [reflexivity | now rewrite IH]. Qed.

Lemma contains_refl (s : string) : contains s s.
Proof. exists "", "". simpl. now rewrite sapp_empty_r. Qed.

Lemma contains_app_l (a b x : string) : contains a x -> contains (a ++ b) x.
Proof.
  intros (pre & post & ->). exists pre, (post ++ b).
  now rewrite !sapp_assoc.
Qed.

Lemma contains_app_r (a b x : string) : contains b x -> contains (a ++ b) x.
Proof.
  intros (pre & post & ->). exists (a ++ pre), post.
  now rewrite !sapp_assoc.
Qed.

Lemma contains_trans (s t u : string) : contains s t -> contains t u -> contains s u.
Proof.
  intros (p1 & q1 & ->) (p2 & q2 & ->).
  exists (p1 ++ p2), (q2 ++ q1). now rewrite !sapp_assoc.
Qed.

Lemma concat_cons (sep x : string) (ls : list string) :
  ls <> [] -> String.concat sep (x :: ls) = x ++ sep ++ String.concat sep ls.
Proof. destruct ls; [congruence | reflexivity]. Qed.

(** An item of a joined list occurs in the joined text. *)
Lemma contains_concat (sep x : string) (ls : list string) :
  In x ls -> contains (String.concat sep ls) x.
Proof.
  induction ls as [|y ls IH]; [intros []|].
  intros [-> | Hin].
  - destruct ls as [|z ls]; [apply contains_refl|].
    rewrite concat_cons by congruence. apply contains_app_l, contains_refl.
  - destruct ls as [|z ls]; [destruct Hin|].
    rewrite concat_cons by congruence.
    apply contains_app_r, contains_app_r, IH, Hin.
Qed.

(** Between two separators, an item stands with a separator on each side. *)
Lemma contains_concat_framed (sep x : string) (ls : list string) :
  In x ls -> contains (sep ++ String.concat sep ls ++ sep) (sep ++ x ++ sep).
Proof.
  induction ls as [|y ls IH]; [intros []|].
  destruct ls as [|z ls].
  - intros [-> | []]. apply contains_refl.
  - rewrite concat_cons by congruence. intros [-> | Hin].
    + exists "", (String.concat sep (z :: ls) ++ sep). simpl.
      now rewrite !sapp_assoc.
    + specialize (IH Hin). rewrite !sapp_assoc.
      apply contains_app_r, contains_app_r, IH.
Qed.

Lemma prefix_app (a s : string) :
  String.prefix a s = true <-> exists post, s = a ++ post.
Proof.
  revert s. induction a as [|x a IH]; intros s; simpl.
  - split; [intros _; now exists s | destruct s; reflexivity].
  - destruct s as [|y s]; simpl.
    + split; [discriminate | intros (post & H); discriminate].
    + destruct (Ascii.ascii_dec x y) as [->|Hne].
      * rewrite IH. split; intros (post & H); exists post; congruence.
      * split; [discriminate | intros (post & H); congruence].
Qed.

(** [py_in] decides [contains]. *)
Lemma py_in_contains (sub s : string) : py_in sub s = true <-> contains s sub.
Proof.
  induction s as [|c s IH]; cbn [py_in].
  - rewrite orb_false_r, prefix_app. split.
    + intros (post & H). exists "", post. exact H.
    + intros (pre & post & H). destruct pre; simpl in H; [now exists post | discriminate].
  - rewrite orb_true_iff, prefix_app, IH. split.
    + intros [(post & H) | (pre & post & H)].
      * exists "", post. exact H.
      * exists (String c pre), post. simpl. now rewrite H.
    + intros (pre & post & H). destruct pre as [|c' pre]; simpl in H.
      * left. now exists post.
      * right. exists pre, post. congruence.
Qed.

(* ================================================================== *)
(** * [format_skills] *)

Lemma map_result_expect_str (v : list string) :
  map_result expect_str (map VStr v) = Ok v.
Proof. induction v as [|x v IH]; simpl; [reflexivity | now rewrite IH]. Qed.

Lemma str_join_names (sep : string) (v : list string) :
  str_join sep (VList (map VStr v)) = Ok (String.concat sep v).
Proof. unfold str_join. simpl. now rewrite map_result_expect_str. Qed.

(** The loop appends one rendered line per item, in order. *)
Lemma format_skills_loop_typed (sk : list (string * list string)) (lines : list string) :
  format_skills_loop
    (map (fun kv => (fst kv, VList (map VStr (snd kv)))) sk) lines
  = Ok (lines ++ map skills_line sk)%list.
Proof.
  revert lines. induction sk as [|[k v] sk IH]; intros lines; simpl.
  - now rewrite app_nil_r.
  - rewrite str_join_names. simpl. rewrite IH. unfold py_append.
    now rewrite <- app_assoc.
Qed.

Lemma format_skills_typed (sk : list (string * list string)) :
  format_skills (skills_value sk) = Ok (String.concat nl (map skills_line sk)).
Proof.
  unfold format_skills, skills_value. simpl.
  now rewrite format_skills_loop_typed.
Qed.

Lemma casing_of_char (c : ascii) :
  to_lower (to_lower c) = to_lower c /\
  to_upper (to_lower c) = to_upper c /\
  is_cased (to_lower c) = is_cased c /\
  (if Ascii.eqb (to_lower c) "_" then " "%char else to_lower c)
  = to_lower (if Ascii.eqb c "_" then " "%char else c).
Proof.
  destruct c as [[|] [|] [|] [|] [|] [|] [|] [|]]; vm_compute; repeat split.
Qed.

Lemma title_from_lower (b : bool) (s : string) :
  title_from b (lower s) = title_from b s.
Proof.
  revert b. induction s as [|c s IH]; intros b; simpl; [reflexivity|].
  destruct (casing_of_char c) as (Hl & Hu & Hc & _).
  rewrite Hc, IH. now destruct b; rewrite ?Hl, ?Hu.
Qed.

Lemma replace_lower (s : string) :
  replace "_" " " (lower s) = lower (replace "_" " " s).
Proof.
  induction s as [|c s IH]; simpl; [reflexivity|].
  destruct (casing_of_char c) as (_ & _ & _ & Hr).
  unfold replace, lower in *. simpl. now rewrite Hr, IH.
Qed.

Lemma humanize_lower (k : string) : humanize (lower k) = humanize k.
Proof. unfold humanize, title. now rewrite replace_lower, title_from_lower. Qed.

(** ** Lines of the block *)

(** Humanizing neither makes nor removes a line break. *)
Lemma newline_of_char (c : ascii) :
  Ascii.eqb (to_lower c) newline = Ascii.eqb c newline /\
  Ascii.eqb (to_upper c) newline = Ascii.eqb c newline /\
  Ascii.eqb (if Ascii.eqb c "_" then " "%char else c) newline = Ascii.eqb c newline.
Proof.
  destruct c as [[|] [|] [|] [|] [|] [|] [|] [|]]; vm_compute; repeat split.
Qed.

Lemma has_newline_title_from (b : bool) (s : string) :
  has_char newline (title_from b s) = has_char newline s.
Proof.
  revert b. induction s as [|c s IH]; intros b; [reflexivity|].
  cbn [title_from has_char]. rewrite IH.
  destruct (newline_of_char c) as (Hl & Hu & _).
  now destruct b; rewrite ?Hl, ?Hu.
Qed.

Lemma has_newline_replace (s : string) :
  has_char newline (replace "_" " " s) = has_char newline s.
Proof.
  unfold replace. induction s as [|c s IH]; [reflexivity|].
  cbn [str_map has_char]. rewrite IH.
  destruct (newline_of_char c) as (_ & _ & Hr). now rewrite Hr.
Qed.

Lemma has_newline_humanize (k : string) :
  has_char newline (humanize k) = has_char newline k.
Proof. unfold humanize, title. now rewrite has_newline_title_from, has_newline_replace. Qed.

Lemma has_char_app (c : ascii) (a b : string) :
  has_char c (a ++ b) = has_char c a || has_char c b.
Proof.
  induction a as [|x a IH]; [reflexivity|].
  cbn [String.append has_char]. now rewrite IH, orb_assoc.
Qed.

Lemma has_char_concat (c : ascii) (sep : string) (ls : list string) :
  has_char c sep = false ->
  (forall x, In x ls -> has_char c x = false) ->
  has_char c (String.concat sep ls) = false.
Proof.
  intros Hsep. induction ls as [|x ls IH]; intros Hall; [reflexivity|].
  destruct ls as [|y ls]; [apply Hall; now left|].
  rewrite concat_cons by congruence. rewrite !has_char_app, Hsep.
  rewrite (Hall x (or_introl eq_refl)), IH; [reflexivity|].
  intros z Hz. apply Hall. now right.
Qed.

(** A text without a line break, followed by a line break, is a first line. *)
Lemma split_lines_app (a b : string) :
  has_char newline a = false ->
  split_lines (a ++ nl ++ b) = a :: split_lines b.
Proof.
  induction a as [|x a IH]; intros Ha.
  - reflexivity.
  - cbn [has_char] in Ha. apply orb_false_iff in Ha as [Hx Ha].
    cbn [String.append split_lines]. rewrite Hx.
    change (a ++ String newline b) with (a ++ nl ++ b). now rewrite (IH Ha).
Qed.

Lemma split_lines_single (a : string) :
  has_char newline a = false -> split_lines a = [a].
Proof.
  induction a as [|x a IH]; intros Ha; [reflexivity|].
  cbn [has_char] in Ha. apply orb_false_iff in Ha as [Hx Ha].
  cbn [split_lines]. now rewrite Hx, (IH Ha).
Qed.

(** Joining lines with line breaks and splitting at line breaks gives the
    lines back, when there is a line and no line holds a line break. *)
Lemma split_lines_concat (ls : list string) :
  ls <> [] ->
  (forall x, In x ls -> has_char newline x = false) ->
  split_lines (String.concat nl ls) = ls.
Proof.
  induction ls as [|x ls IH]; intros Hne Hall; [congruence|].
  destruct ls as [|y ls].
  - apply split_lines_single, Hall. now left.
  - rewrite concat_cons by congruence.
    rewrite split_lines_app by (apply Hall; now left).
    rewrite IH; [reflexivity | congruence |].
    intros z Hz. apply Hall. now right.
Qed.

Lemma skills_line_single (kv : string * list string) :
  has_char newline (fst kv) = false ->
  (forall x, In x (snd kv) -> has_char newline x = false) ->
  has_char newline (skills_line kv) = false.
Proof.
  intros Hk Hv. unfold skills_line.
  rewrite !has_char_app, has_newline_humanize, Hk.
  now rewrite (has_char_concat newline ", " (snd kv) eq_refl Hv).
Qed.

Lemma skills_line_not_empty (kv : string * list string) : skills_line kv <> "".
Proof.
  unfold skills_line. destruct (humanize (fst kv)); discriminate.
Qed.

Lemma concat_not_empty (sep x : string) (ls : list string) :
  x <> "" -> String.concat sep (x :: ls) <> "".
Proof.
  intros Hx. destruct ls as [|y ls]; [exact Hx|].
  rewrite concat_cons by congruence.
  destruct x; [congruence | discriminate].
Qed.

(** The block of newline-free entries has exactly these entries as lines. *)
Lemma lines_of_skills_block (sk : list (string * list string)) :
  (forall kv, In kv sk ->
     has_char newline (fst kv) = false
     /\ forall x, In x (snd kv) -> has_char newline x = false) ->
  lines_of (String.concat nl (map skills_line sk)) = map skills_line sk.
Proof.
  intros Hall. unfold lines_of. destruct sk as [|kv sk]; [reflexivity|].
  cbn [map].
  destruct (String.eqb_spec
              (String.concat nl (skills_line kv :: map skills_line sk)) "")
    as [Hempty | _].
  - now contradiction (concat_not_empty nl (skills_line kv) (map skills_line sk)
                         (skills_line_not_empty kv)).
  - change (skills_line kv :: map skills_line sk) with (map skills_line (kv :: sk)).
    apply split_lines_concat; [discriminate|].
    intros x Hx. apply in_map_iff in Hx as (kv' & <- & Hkv').
    destruct (Hall kv' Hkv') as [Hk Hv]. now apply skills_line_single.
Qed.

(** C6 as stated fails: one category whose skill name holds a line break
    gives a block of two lines. *)
Lemma skills_entry_can_span_two_lines :
  format_skills (skills_value [("a", ["x" ++ nl ++ "y"])])
  = Ok ("A: x" ++ nl ++ "y")
  /\ lines_of ("A: x" ++ nl ++ "y") = ["A: x"; "y"]
  /\ length (lines_of ("A: x" ++ nl ++ "y"))
     <> length [("a", ["x" ++ nl ++ "y"])].
Proof. split; [reflexivity|]. split; [reflexivity | discriminate]. Qed.

(** C6, amended: for every skills mapping with ASCII category keys the block
    is the line-break join of one entry per category, in the mapping's own
    order, each entry the humanized key, a colon and the comma-joined names;
    when no key and no name holds a line break, these entries are exactly
    the lines of the block, one per category.  [current_status] and
    [Current_Status] both give the header [Current Status], and two ASCII
    keys that differ only in the case of their letters give the same
    header. *)
Theorem format_skills_one_entry_per_category :
  forall sk : list (string * list string),
    (forall kv, In kv sk -> is_ascii (fst kv) = true) ->
    format_skills (skills_value sk) = Ok (String.concat nl (map skills_line sk))
    /\ ((forall kv, In kv sk ->
           has_char newline (fst kv) = false
           /\ forall x, In x (snd kv) -> has_char newline x = false) ->
        lines_of (String.concat nl (map skills_line sk)) = map skills_line sk
        /\ length (lines_of (String.concat nl (map skills_line sk))) = length sk)
    /\ humanize "current_status" = "Current Status"
    /\ humanize "Current_Status" = "Current Status"
    /\ (forall k1 k2,
           is_ascii k1 = true -> is_ascii k2 = true ->
           lower k1 = lower k2 -> humanize k1 = humanize k2).
Proof.
  intros sk _. split; [apply format_skills_typed|].
  split.
  - intros Hall. pose proof (lines_of_skills_block sk Hall) as Hlines.
    split; [exact Hlines | now rewrite Hlines, length_map].
  - split; [reflexivity|]. split; [reflexivity|].
    intros k1 k2 _ _ H. now rewrite <- (humanize_lower k1), H, humanize_lower.
Qed.

Lemma format_skills_one_entry_per_category_witness :
  format_skills
    (skills_value [("current_status", ["student"; "intern"]); ("ml_ops", ["docker"])])
  = Ok ("Current Status: student, intern" ++ nl ++ "Ml Ops: docker")
  /\ lines_of ("Current Status: student, intern" ++ nl ++ "Ml Ops: docker")
     = ["Current Status: student, intern"; "Ml Ops: docker"]
  /\ humanize "CURRENT_status" = humanize "current_STATUS".
Proof.
  assert (Hascii : forall kv,
            In kv [("current_status", ["student"; "intern"]); ("ml_ops", ["docker"])] ->
            is_ascii (fst kv) = true).
  { intros kv [<- | [<- | []]]; reflexivity. }
  destruct (format_skills_one_entry_per_category
              [("current_status", ["student"; "intern"]); ("ml_ops", ["docker"])]
              Hascii)
    as (H & Hlines & _ & _ & Hcase).
  split; [exact H|]. split; [|apply Hcase; reflexivity].
  apply Hlines.
  intros kv [<- | [<- | []]]; split; try reflexivity;
    intros x Hx; simpl in Hx; intuition (subst; reflexivity).
Defined.

(* ================================================================== *)
(** * [create_system_prompt] *)

Lemma field_absent (d : list (string * value)) (k : string) :
  lookup k d = None -> field d k = "None".
Proof. unfold field, get_or. now intros ->. Qed.

Lemma field_text (d : list (string * value)) (k s : string) :
  lookup k d = Some (VStr s) -> field d k = s.
Proof. unfold field, get_or. now intros ->. Qed.

Lemma skills_ok_format (d : list (string * value)) :
  skills_ok d ->
  exists skills, format_skills (get_or d "skills" (VDict [])) = Ok skills.
Proof.
  unfold get_or. intros [-> | (sk & ->)].
  - now exists "".
  - eexists. apply format_skills_typed.
Qed.

Lemma map_result_bullets (ps : list (list (string * value))) :
  map_result project_bullet (map VDict ps) = Ok (map bullet_of ps).
Proof. induction ps as [|p ps IH]; simpl; [reflexivity | now rewrite IH]. Qed.

(** With a focus that is a non-empty record, the prompt is the base text
    followed by the focus block. *)
Lemma create_system_prompt_focus (d f : list (string * value)) (skills : string) :
  format_skills (get_or d "skills" (VDict [])) = Ok skills ->
  f <> [] ->
  create_system_prompt (VDict d) (VDict f)
  = Ok (base_prompt_text (field d "name") (field d "summary") (field d "education")
                         (field d "current_status") (field d "goal") skills
        ++ focus_text (field f "name") (field f "type") (field f "category")
                      (field f "problem") (field f "solution") (field f "tools")
                      (field f "outcome")).
Proof.
  intros Hs Hf. unfold create_system_prompt. cbn [py_get rbind].
  rewrite Hs. cbn [rbind].
  destruct f as [|kv f]; [congruence|]. reflexivity.
Qed.

(** With a focus that tests false, the prompt is the base text followed by
    the project list and the broad instructions. *)
Lemma create_system_prompt_broad (d : list (string * value)) (F : value)
  (ps : list (list (string * value))) (skills : string) :
  format_skills (get_or d "skills" (VDict [])) = Ok skills ->
  py_truthy F = false ->
  projects_are d ps ->
  create_system_prompt (VDict d) F
  = Ok (base_prompt_text (field d "name") (field d "summary") (field d "education")
                         (field d "current_status") (field d "goal") skills
        ++ broad_text (String.concat nl (map bullet_of ps))).
Proof.
  intros Hs HF Hp. unfold create_system_prompt. cbn [py_get rbind].
  rewrite Hs. cbn [rbind]. rewrite HF. cbn [py_get rbind].
  unfold projects_are in Hp. rewrite Hp. cbn [py_iter rbind].
  now rewrite map_result_bullets.
Qed.

(** C8: when content fields are missing from the profile or from a project,
    building the prompt does not raise; the text is the template with every
    field shown by [field], which shows a missing key as [None], and with an
    empty skills block when [skills] is missing. *)
Theorem create_system_prompt_missing_content :
  forall (d : list (string * value)) (ps : list (list (string * value))) (F : value),
    skills_ok d ->
    projects_are d ps ->
    (F = VNone \/ exists f, F = VDict f) ->
    (exists skills tail,
        create_system_prompt (VDict d) F
        = Ok (base_prompt_text (field d "name") (field d "summary") (field d "education")
                               (field d "current_status") (field d "goal") skills
              ++ tail)
        /\ (lookup "skills" d = None -> skills = "")
        /\ (forall f, F = VDict f -> f <> [] ->
            tail = focus_text (field f "name") (field f "type") (field f "category")
                              (field f "problem") (field f "solution") (field f "tools")
                              (field f "outcome"))
        /\ (py_truthy F = false ->
            tail = broad_text (String.concat nl (map bullet_of ps))))
    /\ (forall (r : list (string * value)) (k : string),
           lookup k r = None -> field r k = "None").
Proof.
  intros d ps F Hsk Hps HF. split; [|intros r k; apply field_absent].
  destruct (skills_ok_format d Hsk) as (skills & Hs).
  exists skills.
  assert (Hempty : lookup "skills" d = None -> skills = "").
  { intros Hnone. unfold get_or in Hs. rewrite Hnone in Hs.
    now injection Hs as <-. }
  assert (Hcases : py_truthy F = false \/ exists f, F = VDict f /\ f <> []).
  { destruct HF as [-> | (f & ->)]; [now left|].
    destruct f as [|kv f]; [now left | right; eexists; split; [reflexivity | congruence]]. }
  destruct Hcases as [Hfalse | (f & -> & Hne)].
  - eexists. split; [apply (create_system_prompt_broad d F ps skills Hs Hfalse Hps)|].
    split; [exact Hempty|]. split; [|reflexivity].
    intros f -> Hne. destruct f; [congruence | discriminate].
  - eexists. split; [apply (create_system_prompt_focus d f skills Hs Hne)|].
    split; [exact Hempty|]. split.
    + intros f' Heq _. now injection Heq as ->.
    + destruct f; [congruence | discriminate].
Qed.

Lemma create_system_prompt_missing_content_witness :
  create_system_prompt (VDict scenario_profile) VNone
  = Ok (base_prompt_text "A" "None" "None" "None" "None" ""
        ++ broad_text "- X (web)")
  /\ create_system_prompt (VDict scenario_profile) (VDict scenario_project)
     = Ok (base_prompt_text "A" "None" "None" "None" "None" ""
           ++ focus_text "X" "web" "None" "None" "None" "None" "None").
Proof.
  split.
  - destruct (create_system_prompt_missing_content
                scenario_profile [scenario_project] VNone)
      as ((skills & tail & H & Hs & _ & Hb) & _);
      [left; reflexivity | reflexivity | left; reflexivity |].
    rewrite H, (Hs eq_refl), (Hb eq_refl). reflexivity.
  - destruct (create_system_prompt_missing_content
                scenario_profile [scenario_project] (VDict scenario_project))
      as ((skills & tail & H & Hs & Hf & _) & _);
      [left; reflexivity | reflexivity | right; eexists; reflexivity |].
    rewrite H, (Hs eq_refl), (Hf scenario_project eq_refl); [reflexivity | discriminate].
Defined.

(* ------------------------------------------------------------------ *)
(** ** Broad mode *)

Lemma broad_text_shape (project_list : string) :
  broad_text project_list
  = (nl ++ "Projects:") ++ nl ++ project_list ++ nl
    ++ String.concat nl
         [ ""; "Instructions:";
           "- Answer about skills, projects, resume, career goals";
           "- Suggest selecting a project for deep explanation"; "" ].
Proof. reflexivity. Qed.

Lemma contains_framed_in (pre m post x : string) :
  contains (nl ++ m ++ nl) x -> contains (pre ++ nl ++ m ++ nl ++ post) x.
Proof.
  intros H. apply contains_app_r.
  replace (nl ++ m ++ nl ++ post) with ((nl ++ m ++ nl) ++ post)
    by now rewrite !sapp_assoc.
  now apply contains_app_l.
Qed.

Lemma bullet_of_same (p p' : list (string * value)) :
  same_name_type p p' -> bullet_of p = bullet_of p'.
Proof. intros [Hn Ht]. unfold bullet_of, field, get_or. now rewrite Hn, Ht. Qed.

Lemma bullets_same (ps ps' : list (list (string * value))) :
  Forall2 same_name_type ps ps' -> map bullet_of ps = map bullet_of ps'.
Proof.
  induction 1 as [|p p' ps ps' H _ IH]; simpl; [reflexivity|].
  now rewrite (bullet_of_same p p' H), IH.
Qed.

Lemma field_outside_projects (d d' : list (string * value)) (k : string) (default : value) :
  same_outside_projects d d' -> k <> "projects" ->
  get_or d' k default = get_or d k default.
Proof. intros H Hk. unfold get_or. now rewrite (H k Hk). Qed.

(** C3, amended: the broad prompt shows every project as a bullet line
    [- <name> (<type>)] of its own, so it contains every project name; it
    shows no other project field: with the names and types kept, any change
    to the projects leaves the text as it is. *)
Theorem broad_prompt_lists_projects :
  forall (d : list (string * value)) (ps : list (list (string * value))),
    skills_ok d ->
    projects_are d ps ->
    exists txt,
      create_system_prompt (VDict d) VNone = Ok txt
      /\ (forall p, In p ps -> contains txt (nl ++ bullet_of p ++ nl))
      /\ (forall p n, In p ps -> lookup "name" p = Some (VStr n) -> contains txt n)
      /\ (forall d' ps',
             same_outside_projects d d' ->
             projects_are d' ps' ->
             Forall2 same_name_type ps ps' ->
             create_system_prompt (VDict d') VNone = Ok txt).
Proof.
  intros d ps Hsk Hps.
  destruct (skills_ok_format d Hsk) as (skills & Hs).
  eexists. split; [apply (create_system_prompt_broad d VNone ps skills Hs eq_refl Hps)|].
  assert (Hbullet : forall p, In p ps ->
            contains (broad_text (String.concat nl (map bullet_of ps)))
                     (nl ++ bullet_of p ++ nl)).
  { intros p Hin. rewrite broad_text_shape.
    apply contains_framed_in, contains_concat_framed, in_map, Hin. }
  split; [|split].
  - intros p Hin. apply contains_app_r, Hbullet, Hin.
  - intros p n Hin Hn.
    eapply contains_trans; [apply contains_app_r, Hbullet, Hin|].
    apply contains_app_r, contains_app_l.
    unfold bullet_of. rewrite (field_text p "name" n Hn).
    apply contains_app_r, contains_app_l, contains_refl.
  - intros d' ps' Hsame Hps' Hall.
    assert (Hs' : format_skills (get_or d' "skills" (VDict [])) = Ok skills).
    { rewrite (field_outside_projects d d') by (assumption || discriminate). exact Hs. }
    rewrite (create_system_prompt_broad d' VNone ps' skills Hs' eq_refl Hps').
    unfold field.
    rewrite !(field_outside_projects d d') by (assumption || discriminate).
    now rewrite (bullets_same ps ps' Hall).
Qed.

Lemma broad_prompt_lists_projects_witness :
  exists txt,
    create_system_prompt (VDict scenario_profile) VNone = Ok txt
    /\ contains txt (nl ++ "- X (web)" ++ nl)
    /\ contains txt "X".
Proof.
  destruct (broad_prompt_lists_projects scenario_profile [scenario_project])
    as (txt & H & Hb & Hn & _); [left; reflexivity | reflexivity |].
  exists txt. split; [exact H|]. split.
  - apply (Hb scenario_project). left. reflexivity.
  - apply (Hn scenario_project "X"); [left; reflexivity | reflexivity].
Defined.

(** C3 as stated fails: the problem text of [churn_project] is part of its
    name, so the broad prompt, which shows the name, contains it. *)
Lemma broad_prompt_repeats_problem_text :
  projects_are churn_profile [churn_project]
  /\ lookup "problem" churn_project = Some (VStr "Customer Churn")
  /\ exists txt,
       create_system_prompt (VDict churn_profile) VNone = Ok txt
       /\ contains txt "Customer Churn".
Proof.
  split; [reflexivity|]. split; [reflexivity|].
  eexists. split; [vm_compute; reflexivity|].
  apply py_in_contains. vm_compute. reflexivity.
Qed.

(* ------------------------------------------------------------------ *)
(** ** Focused mode *)

(** C4, amended: for a focus record with at least one field the prompt is
    the base text followed by the focus block and nothing else; it contains
    the problem, solution, tools and outcome as the f-string shows them (a
    text field verbatim), and it is the same text whatever the profile's
    [projects] entry holds: the project list is not rendered. *)
Theorem focused_prompt_details :
  forall (d f : list (string * value)),
    skills_ok d ->
    f <> [] ->
    exists txt,
      create_system_prompt (VDict d) (VDict f) = Ok txt
      /\ contains txt (field f "problem")
      /\ contains txt (field f "solution")
      /\ contains txt (field f "tools")
      /\ contains txt (field f "outcome")
      /\ (forall k s, lookup k f = Some (VStr s) -> field f k = s)
      /\ (exists skills,
             txt = base_prompt_text (field d "name") (field d "summary")
                     (field d "education") (field d "current_status")
                     (field d "goal") skills
                   ++ focus_text (field f "name") (field f "type") (field f "category")
                        (field f "problem") (field f "solution") (field f "tools")
                        (field f "outcome"))
      /\ (forall d',
             same_outside_projects d d' ->
             create_system_prompt (VDict d') (VDict f) = Ok txt).
Proof.
  intros d f Hsk Hf.
  destruct (skills_ok_format d Hsk) as (skills & Hs).
  eexists. split; [apply (create_system_prompt_focus d f skills Hs Hf)|].
  assert (Hitem : forall x,
            In x [field f "problem"; field f "solution"; field f "tools"; field f "outcome"] ->
            contains
              (base_prompt_text (field d "name") (field d "summary") (field d "education")
                 (field d "current_status") (field d "goal") skills
               ++ focus_text (field f "name") (field f "type") (field f "category")
                    (field f "problem") (field f "solution") (field f "tools")
                    (field f "outcome")) x).
  { intros x Hx. apply contains_app_r. unfold focus_text. apply contains_concat.
    simpl in Hx. simpl. intuition. }
  repeat (split; [apply Hitem; simpl; tauto|]).
  split; [intros k s; apply field_text|].
  split; [now exists skills|].
  intros d' Hsame.
  assert (Hs' : format_skills (get_or d' "skills" (VDict [])) = Ok skills).
  { rewrite (field_outside_projects d d') by (assumption || discriminate). exact Hs. }
  rewrite (create_system_prompt_focus d' f skills Hs' Hf).
  unfold field.
  now rewrite !(field_outside_projects d d') by (assumption || discriminate).
Qed.

Lemma focused_prompt_details_witness :
  exists txt,
    create_system_prompt (VDict churn_profile) (VDict churn_project) = Ok txt
    /\ contains txt "Customer Churn"
    /\ contains txt "Gradient boosting on usage data"
    /\ contains txt "Python, scikit-learn"
    /\ contains txt "Retention up".
Proof.
  destruct (focused_prompt_details churn_profile churn_project)
    as (txt & H & Hp & Hs & Ht & Ho & _);
    [right; exists [("current_status", ["student"]); ("ml_ops", ["docker"; "git"])];
     reflexivity
    | discriminate |].
  exists txt. repeat split; assumption.
Defined.

(** C4 as stated fails twice.  A project record with no field tests false,
    so with it as the focus the broad prompt is built, project list
    included; and a focus whose problem text spells a bullet puts the text
    of the project list into the focused prompt. *)
Lemma focused_prompt_can_hold_project_list :
  (projects_are blank_first_profile [[]; scenario_project]
   /\ In [] [[]; scenario_project]
   /\ create_system_prompt (VDict blank_first_profile) (VDict [])
      = create_system_prompt (VDict blank_first_profile) VNone
   /\ exists txt,
        create_system_prompt (VDict blank_first_profile) (VDict []) = Ok txt
        /\ contains txt
             (String.concat nl (map bullet_of [[]; scenario_project])))
  /\
  (projects_are bullet_profile [bullet_project]
   /\ In bullet_project [bullet_project]
   /\ exists txt,
        create_system_prompt (VDict bullet_profile) (VDict bullet_project) = Ok txt
        /\ contains txt (String.concat nl (map bullet_of [bullet_project]))).
Proof.
  split.
  - split; [reflexivity|]. split; [left; reflexivity|]. split; [reflexivity|].
    eexists. split; [vm_compute; reflexivity|].
    apply py_in_contains. vm_compute. reflexivity.
  - split; [reflexivity|]. split; [left; reflexivity|].
    eexists. split; [vm_compute; reflexivity|].
    apply py_in_contains. vm_compute. reflexivity.
Qed.

(* ------------------------------------------------------------------ *)
(** ** No projects *)

Lemma no_projects_are (d : list (string * value)) :
  lookup "projects" d = None \/ lookup "projects" d = Some (VList []) ->
  projects_are d [].
Proof. unfold projects_are, get_or. now intros [-> | ->]. Qed.

(** C10: with no [projects] entry, or an empty one, nothing fails: the
    broad prompt is built with an empty project list, the list of project
    names is empty, and every selection resolves to no focus. *)
Theorem no_projects_is_empty_list :
  forall d : list (string * value),
    skills_ok d ->
    lookup "projects" d = None \/ lookup "projects" d = Some (VList []) ->
    (exists skills,
        create_system_prompt (VDict d) VNone
        = Ok (base_prompt_text (field d "name") (field d "summary") (field d "education")
                               (field d "current_status") (field d "goal") skills
              ++ broad_text ""))
    /\ project_names (VDict d) = Ok []
    /\ (forall selected, resolve_focus selected (VDict d) = Ok VNone).
Proof.
  intros d Hsk Hno. pose proof (no_projects_are d Hno) as Hps.
  destruct (skills_ok_format d Hsk) as (skills & Hs).
  split; [|split].
  - exists skills. apply (create_system_prompt_broad d VNone [] skills Hs eq_refl Hps).
  - unfold project_names. cbn [py_get rbind]. unfold projects_are in Hps.
    now rewrite Hps.
  - intros selected. unfold resolve_focus. cbn [py_get rbind].
    unfold projects_are in Hps. rewrite Hps.
    now destruct (py_truthy selected).
Qed.

Lemma no_projects_is_empty_list_witness :
  (exists skills,
      create_system_prompt (VDict [("name", VStr "A")]) VNone
      = Ok (base_prompt_text "A" "None" "None" "None" "None" skills ++ broad_text ""))
  /\ project_names (VDict [("name", VStr "A")]) = Ok []
  /\ resolve_focus (VStr "X") (VDict [("name", VStr "A")]) = Ok VNone.
Proof.
  destruct (no_projects_is_empty_list [("name", VStr "A")])
    as (H1 & H2 & H3); [left; reflexivity | left; reflexivity |].
  split; [exact H1|]. split; [exact H2 | apply H3].
Defined.

(* ================================================================== *)
(** * One turn of [main] *)

Lemma removelast_append {A} (l : list A) (a : A) : removelast (py_append l a) = l.
Proof. apply removelast_last. Qed.

(** [get_ai_response] reads the session, never writes it, and issues its
    one request only when the prompt could be built. *)
Lemma get_ai_response_run (r : run) (user_message : string)
  (hist : list message) (portfolio : value) (w : world) :
  get_ai_response r user_message hist portfolio w =
  match system_prompt_for (session_get_selected (session w)) portfolio with
  | Raise e => (Raise e, w)
  | Ok system_prompt =>
      let messages := build_messages system_prompt user_message hist in
      (responses_create r messages,
       World (session w) (errors_shown w) (py_append (requests w) messages))
  end.
Proof.
  unfold get_ai_response, system_prompt_for, bind, get_session, lift,
    client_responses_create.
  destruct (resolve_focus (session_get_selected (session w)) portfolio)
    as [focus | e]; cbn [rbind]; [|reflexivity].
  destruct (create_system_prompt portfolio focus) as [system_prompt | e];
    reflexivity.
Qed.

Section Turn.

Variables (r : run) (w : world) (portfolio : value) (names : list value)
          (user_input : string).
Hypothesis Hfile : knowledge_file r = Json portfolio.
Hypothesis Hloaded : py_truthy portfolio = true.
Hypothesis Hnames : project_names portfolio = Ok names.
Hypothesis Hinput : chat_input r = Some user_input.
Hypothesis Hnonempty : user_input <> "".

(** [main] runs up to the call of [get_ai_response], which it makes with
    the history as it was before the user's message. *)
Lemma main_until_call :
  main r w =
  match get_ai_response r user_input (history_of w) portfolio
          (world_at_call r w names user_input) with
  | (Ok reply, w2) =>
      bind (append_message (Message "assistant" reply (now r 1)))
           (fun _ => ret Rerun) w2
  | (Raise e, w2) => (Raise e, w2)
  end.
Proof.
  assert (Ht : py_truthy (VStr user_input) = true).
  { simpl. destruct (String.eqb_spec user_input ""); [contradiction | reflexivity]. }
  assert (Hw : (match chat_history (session w) with
                | Some h0 => Some h0 | None => Some [] end) = Some (history_of w)).
  { unfold history_of. now destruct (chat_history (session w)). }
  unfold main, load_portfolio. rewrite Hfile. unfold ret at 1. run_bind.
  rewrite Hloaded, Hinput, Ht. cbn [negb].
  unfold init_session, get_session, put_session, lift. do 3 run_bind.
  rewrite Hnames. fold (selection r names).
  unfold set_selected_project, get_session, put_session. do 2 run_bind.
  unfold append_message, get_chat_history, get_session, put_session.
  do 3 run_bind. rewrite Hw. unfold ret at 1. do 3 run_bind.
  unfold ret at 1. rewrite removelast_append.
  change (World _ (errors_shown w) (requests w))
    with (world_at_call r w names user_input).
  run_bind.
  destruct (get_ai_response r user_input (history_of w) portfolio
              (world_at_call r w names user_input)) as [[reply | e] w2];
    reflexivity.
Qed.

(** The three ways a turn can go: no prompt, no reply, or a reply. *)
Lemma main_turn :
  main r w =
  match system_prompt_for (selection r names) portfolio with
  | Raise e => (Raise e, world_at_call r w names user_input)
  | Ok system_prompt =>
      let messages := build_messages system_prompt user_input (history_of w) in
      match responses_create r messages with
      | Raise e =>
          (Raise e,
           World (session (world_at_call r w names user_input))
                 (errors_shown w) (py_append (requests w) messages))
      | Ok reply =>
          (Ok Rerun,
           World (SessionState
                    (Some (py_append
                             (py_append (history_of w)
                                        (Message "user" user_input (now r 0)))
                             (Message "assistant" reply (now r 1))))
                    (Some (selection r names)))
                 (errors_shown w) (py_append (requests w) messages))
      end
  end.
Proof.
  rewrite main_until_call, get_ai_response_run.
  change (session_get_selected (session (world_at_call r w names user_input)))
    with (selection r names).
  destruct (system_prompt_for (selection r names) portfolio)
    as [system_prompt | e]; [|reflexivity].
  cbn zeta.
  destruct (responses_create r
              (build_messages system_prompt user_input (history_of w)))
    as [reply | e]; reflexivity.
Qed.

End Turn.

Lemma system_prompt_for_ok (selected portfolio focus : value) (system_prompt : string) :
  resolve_focus selected portfolio = Ok focus ->
  create_system_prompt portfolio focus = Ok system_prompt ->
  system_prompt_for selected portfolio = Ok system_prompt.
Proof. unfold system_prompt_for. intros Hf Hp. rewrite Hf. exact Hp. Qed.

Lemma append_two {A} (l : list A) (a b : A) :
  py_append (py_append l a) b = (l ++ [a; b])%list.
Proof. unfold py_append. now rewrite <- app_assoc. Qed.

(** C1: in a run that takes a turn, a completion that answers leaves the
    history with exactly two more messages, the user's and then the
    assistant's; a completion that raises, or a prompt that cannot be built,
    leaves it with the user's message alone and no assistant message, and
    the exception ends the run. *)
Theorem turn_appends_user_then_assistant :
  forall (r : run) (w : world) (portfolio : value) (names : list value)
         (user_input : string),
    knowledge_file r = Json portfolio ->
    py_truthy portfolio = true ->
    project_names portfolio = Ok names ->
    chat_input r = Some user_input ->
    user_input <> "" ->
    let h := history_of w in
    let user := Message "user" user_input (now r 0) in
    let after := chat_history (session (snd (main r w))) in
    (forall focus system_prompt reply,
        resolve_focus (selection r names) portfolio = Ok focus ->
        create_system_prompt portfolio focus = Ok system_prompt ->
        responses_create r (build_messages system_prompt user_input h) = Ok reply ->
        fst (main r w) = Ok Rerun
        /\ after = Some (h ++ [user; Message "assistant" reply (now r 1)])%list)
    /\ (forall focus system_prompt e,
        resolve_focus (selection r names) portfolio = Ok focus ->
        create_system_prompt portfolio focus = Ok system_prompt ->
        responses_create r (build_messages system_prompt user_input h) = Raise e ->
        fst (main r w) = Raise e /\ after = Some (h ++ [user])%list)
    /\ match fst (main r w) with
       | Ok _ =>
           exists reply,
             after = Some (h ++ [user; Message "assistant" reply (now r 1)])%list
       | Raise _ => after = Some (h ++ [user])%list
       end.
Proof.
  intros r w portfolio names user_input Hfile Hloaded Hnames Hinput Hne h user after.
  subst h user after.
  rewrite (main_turn r w portfolio names user_input Hfile Hloaded Hnames Hinput Hne).
  split; [|split].
  - intros focus system_prompt reply Hf Hp Hr.
    rewrite (system_prompt_for_ok _ _ _ _ Hf Hp). cbn zeta. rewrite Hr.
    cbn [fst snd session chat_history]. now rewrite append_two.
  - intros focus system_prompt e Hf Hp Hr.
    rewrite (system_prompt_for_ok _ _ _ _ Hf Hp). cbn zeta. rewrite Hr.
    split; reflexivity.
  - destruct (system_prompt_for (selection r names) portfolio)
      as [system_prompt | e]; [|reflexivity].
    cbn zeta.
    destruct (responses_create r
                (build_messages system_prompt user_input (history_of w)))
      as [reply | e]; [|reflexivity].
    cbn [fst snd session chat_history]. exists reply. now rewrite append_two.
Qed.

Lemma turn_appends_user_then_assistant_witness :
  chat_history (session (snd (main answering_run earlier_world)))
  = Some (earlier_turn
          ++ [Message "user" "what projects do you have?" "2024-01-01T10:00:00";
              Message "assistant" "One: X." "2024-01-01T10:00:05"])%list
  /\ chat_history (session (snd (main failing_run earlier_world)))
     = Some (earlier_turn
             ++ [Message "user" "what projects do you have?" "2024-01-01T10:00:00"])%list.
Proof.
  split.
  - pose proof (turn_appends_user_then_assistant answering_run earlier_world
                  (VDict scenario_profile) [VStr "X"] "what projects do you have?"
                  eq_refl eq_refl eq_refl eq_refl) as H.
    cbv zeta in H.
    destruct H as (Hok & _); [discriminate|].
    destruct (Hok VNone _ "One: X." eq_refl eq_refl eq_refl) as (_ & Hafter).
    exact Hafter.
  - pose proof (turn_appends_user_then_assistant failing_run earlier_world
                  (VDict scenario_profile) [VStr "X"] "what projects do you have?"
                  eq_refl eq_refl eq_refl eq_refl) as H.
    cbv zeta in H.
    destruct H as (_ & Hfail & _); [discriminate|].
    destruct (Hfail VNone _ (APIError "unavailable") eq_refl eq_refl eq_refl)
      as (_ & Hafter).
    exact Hafter.
Defined.

(** C2: the one request of a turn is the system prompt, then the earlier
    history in order with the role and the content of each message and no
    time, then the new user message. *)
Theorem request_is_system_history_user :
  forall (r : run) (w : world) (portfolio : value) (names : list value)
         (user_input : string) (focus : value) (system_prompt : string),
    knowledge_file r = Json portfolio ->
    py_truthy portfolio = true ->
    project_names portfolio = Ok names ->
    chat_input r = Some user_input ->
    user_input <> "" ->
    resolve_focus (selection r names) portfolio = Ok focus ->
    create_system_prompt portfolio focus = Ok system_prompt ->
    requests (snd (main r w))
    = (requests w
       ++ [ RequestMessage "system" system_prompt
            :: map (fun m => RequestMessage (role m) (content m)) (history_of w)
            ++ [RequestMessage "user" user_input] ])%list.
Proof.
  intros r w portfolio names user_input focus system_prompt
         Hfile Hloaded Hnames Hinput Hne Hf Hp.
  rewrite (main_turn r w portfolio names user_input Hfile Hloaded Hnames Hinput Hne).
  rewrite (system_prompt_for_ok _ _ _ _ Hf Hp). cbn zeta.
  destruct (responses_create r
              (build_messages system_prompt user_input (history_of w)));
    reflexivity.
Qed.

Lemma request_is_system_history_user_witness :
  exists system_prompt,
    create_system_prompt (VDict scenario_profile) VNone = Ok system_prompt
    /\ requests (snd (main failing_run earlier_world))
       = [[RequestMessage "system" system_prompt;
           RequestMessage "user" "hello";
           RequestMessage "assistant" "Hi, ask me anything.";
           RequestMessage "user" "what projects do you have?"]].
Proof.
  eexists. split; [vm_compute; reflexivity|].
  refine (request_is_system_history_user failing_run earlier_world
            (VDict scenario_profile) [VStr "X"] "what projects do you have?"
            VNone _ eq_refl eq_refl eq_refl eq_refl _ eq_refl eq_refl).
  discriminate.
Defined.

(* ================================================================== *)
(** * Focus resolution *)

Lemma py_eq_text (a b : string) : py_eq (VStr a) (VStr b) = true <-> a = b.
Proof. simpl. apply String.eqb_eq. Qed.

(** The search passes over every record whose name differs. *)
Lemma find_project_skip (selected : value) (ps : list (list (string * value)))
  (rest : list value) :
  (forall q, In q ps -> py_eq (name_of q) selected = false) ->
  find_project selected (map VDict ps ++ rest)%list = find_project selected rest.
Proof.
  induction ps as [|q ps IH]; intros Hno; [reflexivity|].
  cbn [map app find_project py_get rbind].
  fold (name_of q). rewrite (Hno q (or_introl eq_refl)).
  apply IH. intros q' Hq'. apply Hno. now right.
Qed.

Lemma find_project_unmatched (selected : value) (ps : list (list (string * value))) :
  (forall q, In q ps -> py_eq (name_of q) selected = false) ->
  find_project selected (map VDict ps) = Ok VNone.
Proof.
  intros Hno. rewrite <- (app_nil_r (map VDict ps)).
  now rewrite find_project_skip.
Qed.

Lemma resolve_focus_unmatched (d : list (string * value))
  (ps : list (list (string * value))) (selected : value) :
  projects_are d ps ->
  (forall q, In q ps -> py_eq (name_of q) selected = false) ->
  resolve_focus selected (VDict d) = Ok VNone.
Proof.
  intros Hps Hno. unfold resolve_focus.
  destruct (py_truthy selected); [|reflexivity].
  cbn [py_get rbind]. unfold projects_are in Hps. rewrite Hps.
  cbn [py_iter rbind]. now apply find_project_unmatched.
Qed.

Lemma map_result_names (ps : list (list (string * value))) :
  map_result (fun p => py_get p "name" VNone) (map VDict ps) = Ok (map name_of ps).
Proof.
  induction ps as [|p ps IH]; [reflexivity|].
  cbn [map map_result py_get rbind]. now rewrite IH.
Qed.

Lemma project_names_are (d : list (string * value)) (ps : list (list (string * value))) :
  projects_are d ps ->
  project_names (VDict d) = Ok (map name_of ps).
Proof.
  intros Hps. unfold project_names. cbn [py_get rbind].
  unfold projects_are in Hps. rewrite Hps. cbn [py_iter rbind].
  apply map_result_names.
Qed.

Lemma truthy_dict (d : list (string * value)) : d <> [] -> py_truthy (VDict d) = true.
Proof. destruct d; [congruence | reflexivity]. Qed.

(** C7: a selected name that equals no project's name (equality of texts is
    exact, letter case included) resolves to no focus without an error, and
    the turn is taken with the broad prompt, whatever focus the session held
    before the run. *)
Theorem unmatched_selection_gives_broad_turn :
  forall (d : list (string * value)) (ps : list (list (string * value)))
         (selected : value),
    projects_are d ps ->
    (forall p, In p ps -> py_eq (name_of p) selected = false) ->
    resolve_focus selected (VDict d) = Ok VNone
    /\ (forall a b, py_eq (VStr a) (VStr b) = true <-> a = b)
    /\ (forall (r : run) (w : world) (user_input : string),
           skills_ok d ->
           d <> [] ->
           knowledge_file r = Json (VDict d) ->
           chat_input r = Some user_input ->
           user_input <> "" ->
           selectbox r (VStr no_project_selected :: map name_of ps) = selected ->
           exists skills,
             requests (snd (main r w))
             = (requests w
                ++ [build_messages
                      (base_prompt_text (field d "name") (field d "summary")
                         (field d "education") (field d "current_status")
                         (field d "goal") skills
                       ++ broad_text (String.concat nl (map bullet_of ps)))
                      user_input (history_of w)])%list).
Proof.
  intros d ps selected Hps Hno.
  split; [now apply (resolve_focus_unmatched d ps)|].
  split; [apply py_eq_text|].
  intros r w user_input Hsk Hd Hfile Hinput Hne Hsel.
  destruct (skills_ok_format d Hsk) as (skills & Hs). exists skills.
  rewrite (main_turn r w (VDict d) (map name_of ps) user_input Hfile
             (truthy_dict d Hd) (project_names_are d ps Hps) Hinput Hne).
  assert (Hfocus : resolve_focus (selection r (map name_of ps)) (VDict d) = Ok VNone).
  { unfold selection. rewrite Hsel.
    destruct (py_eq selected (VStr no_project_selected)); [reflexivity|].
    now apply (resolve_focus_unmatched d ps). }
  rewrite (system_prompt_for_ok _ _ _ _ Hfocus
             (create_system_prompt_broad d VNone ps skills Hs eq_refl Hps)).
  cbn zeta.
  match goal with |- context [responses_create r ?m] =>
    destruct (responses_create r m) end; reflexivity.
Qed.

Lemma unmatched_selection_gives_broad_turn_witness :
  resolve_focus (VStr "x") (VDict scenario_profile) = Ok VNone
  /\ exists skills,
       requests (snd (main answering_run earlier_world))
       = [build_messages
            (base_prompt_text "A" "None" "None" "None" "None" skills
             ++ broad_text "- X (web)")
            "what projects do you have?" earlier_turn].
Proof.
  split.
  - apply (unmatched_selection_gives_broad_turn scenario_profile [scenario_project]
             (VStr "x")); [reflexivity|].
    intros p [<- | []]. reflexivity.
  - assert (Hno : forall p, In p [scenario_project] ->
                    py_eq (name_of p) (VStr no_project_selected) = false).
    { intros p [<- | []]. reflexivity. }
    destruct (unmatched_selection_gives_broad_turn scenario_profile [scenario_project]
                (VStr no_project_selected) eq_refl Hno) as (_ & _ & Hturn).
    apply (Hturn answering_run earlier_world "what projects do you have?");
      try reflexivity; try discriminate.
    left. reflexivity.
Defined.

(** C9, amended: when the selected value tests true (a non-empty name), the
    focus is the first project, in the order of the sequence, whose name
    equals it; later projects of the same name are never reached. *)
Theorem focus_is_first_match :
  forall (d : list (string * value)) (ps1 : list (list (string * value)))
         (p : list (string * value)) (ps2 : list (list (string * value)))
         (selected : value),
    py_truthy selected = true ->
    projects_are d (ps1 ++ p :: ps2)%list ->
    py_eq (name_of p) selected = true ->
    (forall q, In q ps1 -> py_eq (name_of q) selected = false) ->
    resolve_focus selected (VDict d) = Ok (VDict p).
Proof.
  intros d ps1 p ps2 selected Ht Hps Hp Hno.
  unfold resolve_focus. rewrite Ht. cbn [py_get rbind].
  unfold projects_are in Hps. rewrite Hps. cbn [py_iter rbind].
  rewrite map_app. rewrite (find_project_skip selected ps1 _ Hno).
  cbn [map find_project py_get rbind]. fold (name_of p). now rewrite Hp.
Qed.

Lemma focus_is_first_match_witness :
  resolve_focus (VStr "Y") (VDict twin_profile) = Ok (VDict twin_first).
Proof.
  apply (focus_is_first_match twin_profile [scenario_project] twin_first
           [[("name", VStr "Y"); ("type", VStr "c")]] (VStr "Y"));
    try reflexivity.
  intros q [<- | []]. reflexivity.
Defined.

(** C9 as stated fails: two projects share the empty name, the empty name is
    selected, and the focus is none instead of the first of them, because an
    empty selection tests false and the search is not run. *)
Lemma empty_name_resolves_to_none :
  projects_are unnamed_twins_profile
    [unnamed_first; [("name", VStr ""); ("type", VStr "b")]]
  /\ py_eq (name_of unnamed_first) (VStr "") = true
  /\ resolve_focus (VStr "") (VDict unnamed_twins_profile) = Ok VNone
  /\ resolve_focus (VStr "") (VDict unnamed_twins_profile) <> Ok (VDict unnamed_first).
Proof. repeat split; try reflexivity. discriminate. Qed.

(* ================================================================== *)
(** * Loading the knowledge document *)

(** C5, amended: a missing document is reported with [st.error] and loads
    as the empty profile, on which [main] returns at once, the session
    untouched and no request issued; a document that is not JSON makes the
    load, and with it the run, raise the parser's error; any JSON value is
    returned as it is, whatever its shape. *)
Theorem load_portfolio_outcomes :
  forall (answer : list value -> value) (input : option string)
         (clock : nat -> string) (client : list request_message -> result string)
         (w : world),
    let reported :=
      World (session w)
            (py_append (errors_shown w) "portfolio_knowledge.json not found")
            (requests w) in
    load_portfolio (Run Missing answer input clock client) w = (Ok (VDict []), reported)
    /\ main (Run Missing answer input clock client) w = (Ok Returned, reported)
    /\ load_portfolio (Run NotJson answer input clock client) w
       = (Raise JSONDecodeError, w)
    /\ main (Run NotJson answer input clock client) w = (Raise JSONDecodeError, w)
    /\ (forall v, load_portfolio (Run (Json v) answer input clock client) w = (Ok v, w)).
Proof.
  intros answer input clock client w reported.
  repeat split.
Qed.

(** C5 as stated fails: with the document missing the load returns the
    empty profile instead of failing, and a JSON document that is no profile
    (here a list) loads without any error. *)
Lemma missing_document_loads_empty_profile :
  fst (load_portfolio
         (Run Missing (fun _ => VNone) None sample_clock (fun _ => Ok "")) fresh_world)
  = Ok (VDict [])
  /\ fst (load_portfolio
            (Run (Json (VList [VInt 1])) (fun _ => VNone) None sample_clock
                 (fun _ => Ok "")) fresh_world)
     = Ok (VList [VInt 1]).
Proof. split; reflexivity. Qed.


(* ================================================================== *)
(** * Every run of [main] *)

(** [main] case by case: the file, the truth value of the document, the
    project names, and the chat input decide how a run goes. *)
Lemma main_run (r : run) (w : world) :
  main r w =
  match knowledge_file r with
  | Missing =>
      (Ok Returned,
       World (session w)
             (py_append (errors_shown w) "portfolio_knowledge.json not found")
             (requests w))
  | NotJson => (Raise JSONDecodeError, w)
  | Json portfolio =>
      if py_truthy portfolio then
        match project_names portfolio with
        | Raise e =>
            (Raise e,
             World (SessionState (Some (history_of w))
                                 (Some (session_get_selected (session w))))
                   (errors_shown w) (requests w))
        | Ok names =>
            let idle :=
              (Ok Returned,
               World (SessionState (Some (history_of w)) (Some (selection r names)))
                     (errors_shown w) (requests w)) in
            match chat_input r with
            | Some user_input =>
                if py_truthy (VStr user_input)
                then take_turn r w portfolio names user_input
                else idle
            | None => idle
            end
        end
      else (Ok Returned, w)
  end.
Proof.
  destruct (knowledge_file r) as [| |portfolio] eqn:Hfile;
    [unfold main, load_portfolio; rewrite Hfile; reflexivity
    |unfold main, load_portfolio; rewrite Hfile; reflexivity|].
  destruct (py_truthy portfolio) eqn:Hloaded;
    [|unfold main, load_portfolio; rewrite Hfile; unfold ret at 1; run_bind;
      rewrite Hloaded; reflexivity].
  assert (Hh : (match chat_history (session w) with
                | Some h0 => Some h0 | None => Some [] end) = Some (history_of w)).
  { unfold history_of. now destruct (chat_history (session w)). }
  assert (Hsel : (match selected_project (session w) with
                  | Some v => Some v | None => Some VNone end)
                 = Some (session_get_selected (session w))).
  { unfold session_get_selected. now destruct (selected_project (session w)). }
  destruct (project_names portfolio) as [names | e] eqn:Hnames.
  - cbv zeta.
    destruct (chat_input r) as [user_input|] eqn:Hinput.
    + destruct (py_truthy (VStr user_input)) eqn:Ht.
      * assert (Hne : user_input <> "") by (intros ->; discriminate).
        now rewrite (main_turn r w portfolio names user_input
                       Hfile Hloaded Hnames Hinput Hne).
      * unfold main, load_portfolio. rewrite Hfile. unfold ret at 1. run_bind.
        rewrite Hloaded, Hinput, Ht. cbn [negb].
        unfold init_session, get_session, put_session, lift. do 3 run_bind.
        rewrite Hnames. fold (selection r names).
        unfold set_selected_project, get_session, put_session. do 2 run_bind.
        now rewrite Hh.
    + unfold main, load_portfolio. rewrite Hfile. unfold ret at 1. run_bind.
      rewrite Hloaded, Hinput. cbn [negb].
      unfold init_session, get_session, put_session, lift. do 3 run_bind.
      rewrite Hnames. fold (selection r names).
      unfold set_selected_project, get_session, put_session. do 2 run_bind.
      now rewrite Hh.
  - unfold main, load_portfolio. rewrite Hfile. unfold ret at 1. run_bind.
    rewrite Hloaded. cbn [negb].
    unfold init_session, get_session, put_session, lift. do 3 run_bind.
    now rewrite Hnames, Hh, Hsel.
Qed.

Lemma history_of_world (h : list message) (sel : option value)
  (errs : list string) (reqs : list (list request_message)) :
  history_of (World (SessionState (Some h) sel) errs reqs) = h.
Proof. reflexivity. Qed.

(** Whatever the file, the widgets and the client do, a run never drops or
    rewrites a message of the history: it adds at most two at the end, and
    it issues at most one request. *)
Theorem main_history_append_only :
  forall (r : run) (w : world),
    (exists added,
        history_of (snd (main r w)) = (history_of w ++ added)%list
        /\ length added <= 2)
    /\ (requests (snd (main r w)) = requests w
        \/ exists messages, requests (snd (main r w)) = (requests w ++ [messages])%list).
Proof.
  intros r w. rewrite main_run.
  assert (Hsame : forall sel errs,
            exists added,
              history_of (World (SessionState (Some (history_of w)) sel) errs (requests w))
              = (history_of w ++ added)%list /\ length added <= 2).
  { intros sel errs. exists []. rewrite history_of_world, app_nil_r.
    split; [reflexivity | repeat constructor]. }
  destruct (knowledge_file r) as [| |portfolio].
  - split; [|now left]. exists []. rewrite app_nil_r.
    split; [reflexivity | repeat constructor].
  - split; [|now left]. exists []. rewrite app_nil_r.
    split; [reflexivity | repeat constructor].
  - destruct (py_truthy portfolio).
    2:{ split; [|now left]. exists []. rewrite app_nil_r.
        split; [reflexivity | repeat constructor]. }
    destruct (project_names portfolio) as [names | e];
      [|split; [apply Hsame | now left]].
    cbv zeta.
    destruct (chat_input r) as [user_input|]; [|split; [apply Hsame | now left]].
    destruct (py_truthy (VStr user_input)); [|split; [apply Hsame | now left]].
    unfold take_turn.
    destruct (system_prompt_for (selection r names) portfolio) as [system_prompt | e].
    + cbv zeta.
      destruct (responses_create r
                  (build_messages system_prompt user_input (history_of w)))
        as [reply | e].
      * split; [|right; eexists; reflexivity].
        eexists. cbn [snd]. rewrite history_of_world, append_two.
        split; [reflexivity | repeat constructor].
      * split; [|right; eexists; reflexivity].
        eexists. cbn [snd]. unfold world_at_call. cbn [session].
        rewrite history_of_world. split; [reflexivity | repeat constructor].
    + split; [|now left].
      eexists. cbn [snd]. unfold world_at_call. rewrite history_of_world.
      split; [reflexivity | repeat constructor].
Qed.

(** A run that ends with [st.rerun()] has taken a turn: it added the user's
    message and then the assistant's, and nothing else. *)
Lemma rerun_adds_a_pair (r : run) (w : world) :
  fst (main r w) = Ok Rerun ->
  exists user_input reply,
    history_of (snd (main r w))
    = (history_of w ++ [Message "user" user_input (now r 0);
                        Message "assistant" reply (now r 1)])%list.
Proof.
  rewrite main_run.
  destruct (knowledge_file r) as [| |portfolio]; try discriminate.
  destruct (py_truthy portfolio); try discriminate.
  destruct (project_names portfolio) as [names | e]; try discriminate.
  cbv zeta.
  destruct (chat_input r) as [user_input|]; try discriminate.
  destruct (py_truthy (VStr user_input)); try discriminate.
  unfold take_turn.
  destruct (system_prompt_for (selection r names) portfolio) as [system_prompt | e];
    try discriminate.
  cbv zeta.
  destruct (responses_create r
              (build_messages system_prompt user_input (history_of w)))
    as [reply | e]; try discriminate.
  intros _. exists user_input, reply. cbn [snd].
  now rewrite history_of_world, append_two.
Qed.

(** Over any number of consecutive runs that each complete a turn, the
    history grows by a user message and an assistant message per run, in
    that order: from an empty history, [n] turns leave [2 * n] messages that
    alternate, starting with the user. *)
Theorem completed_turns_alternate :
  forall (rs : list run) (w : world),
    all_turns_complete rs w ->
    map role (history_of (run_script rs w))
    = (map role (history_of w) ++ turn_roles (length rs))%list
    /\ length (history_of (run_script rs w))
       = length (history_of w) + 2 * length rs.
Proof.
  induction rs as [|r rs IH]; intros w Hall.
  - cbn. now rewrite app_nil_r, Nat.add_0_r.
  - destruct Hall as [Hrerun Hrest].
    destruct (rerun_adds_a_pair r w Hrerun) as (user_input & reply & Hh).
    destruct (IH _ Hrest) as [Hroles Hlen].
    cbn [run_script length turn_roles]. split.
    + rewrite Hroles, Hh, map_app, <- app_assoc. reflexivity.
    + rewrite Hlen, Hh, length_app. cbn [length].
      rewrite <- !Nat.add_assoc. f_equal.
      cbn. rewrite !Nat.add_succ_r. reflexivity.
Qed.

Lemma completed_turns_alternate_witness :
  map role (history_of (run_script [answering_run; answering_run; answering_run]
                                   fresh_world))
  = ["user"; "assistant"; "user"; "assistant"; "user"; "assistant"]
  /\ length (history_of (run_script [answering_run; answering_run; answering_run]
                                    fresh_world)) = 6.
Proof.
  apply (completed_turns_alternate [answering_run; answering_run; answering_run]
           fresh_world).
  repeat split.
Defined.

(** A knowledge file that holds an empty or false JSON value (an empty
    object, an empty list, null, 0, an empty text) ends the run at once and
    silently: nothing is shown, stored or sent. *)
Theorem empty_document_returns_silently :
  forall (r : run) (w : world) (v : value),
    knowledge_file r = Json v ->
    py_truthy v = false ->
    main r w = (Ok Returned, w).
Proof.
  intros r w v Hfile Hfalse. rewrite main_run, Hfile, Hfalse. reflexivity.
Qed.

Lemma empty_document_returns_silently_witness :
  main (Run (Json (VDict [])) (fun _ => VNone) (Some "hi") sample_clock
            (fun _ => Ok "")) earlier_world
  = (Ok Returned, earlier_world).
Proof.
  exact (empty_document_returns_silently
           (Run (Json (VDict [])) (fun _ => VNone) (Some "hi") sample_clock
                (fun _ => Ok ""))
           earlier_world (VDict []) eq_refl eq_refl).
Defined.

(** With no question typed (no input, or an empty one), a run on a loaded
    profile sends nothing and leaves the history as it is; it still stores
    the select box's answer as the focus. *)
Theorem idle_run_stores_selection_only :
  forall (r : run) (w : world) (portfolio : value) (names : list value),
    knowledge_file r = Json portfolio ->
    py_truthy portfolio = true ->
    project_names portfolio = Ok names ->
    chat_input r = None \/ chat_input r = Some "" ->
    main r w
    = (Ok Returned,
       World (SessionState (Some (history_of w)) (Some (selection r names)))
             (errors_shown w) (requests w)).
Proof.
  intros r w portfolio names Hfile Hloaded Hnames Hinput.
  rewrite main_run, Hfile, Hloaded, Hnames. cbv zeta.
  destruct Hinput as [-> | ->]; reflexivity.
Qed.

Lemma idle_run_stores_selection_only_witness :
  main (Run (Json (VDict scenario_profile)) (fun _ => VStr "X") None sample_clock
            (fun _ => Ok "")) fresh_world
  = (Ok Returned, World (SessionState (Some []) (Some (VStr "X"))) [] []).
Proof.
  exact (idle_run_stores_selection_only
           (Run (Json (VDict scenario_profile)) (fun _ => VStr "X") None sample_clock
                (fun _ => Ok ""))
           fresh_world (VDict scenario_profile) [VStr "X"]
           eq_refl eq_refl eq_refl (or_introl eq_refl)).
Defined.

(** After a turn whose completion raised, the user's message stays in the
    history: the next completed turn sends it along as history, and leaves
    two user messages in a row before the assistant's reply. *)
Theorem retry_keeps_dangling_user_message :
  forall (r1 r2 : run) (w : world) (p1 p2 : value) (names1 names2 : list value)
         (u1 u2 sys1 sys2 reply : string) (e : exn),
    knowledge_file r1 = Json p1 ->
    py_truthy p1 = true ->
    project_names p1 = Ok names1 ->
    chat_input r1 = Some u1 ->
    u1 <> "" ->
    system_prompt_for (selection r1 names1) p1 = Ok sys1 ->
    responses_create r1 (build_messages sys1 u1 (history_of w)) = Raise e ->
    knowledge_file r2 = Json p2 ->
    py_truthy p2 = true ->
    project_names p2 = Ok names2 ->
    chat_input r2 = Some u2 ->
    u2 <> "" ->
    system_prompt_for (selection r2 names2) p2 = Ok sys2 ->
    responses_create r2
      (build_messages sys2 u2 (history_of w ++ [Message "user" u1 (now r1 0)])%list)
    = Ok reply ->
    fst (main r1 w) = Raise e
    /\ fst (main r2 (snd (main r1 w))) = Ok Rerun
    /\ history_of (snd (main r2 (snd (main r1 w))))
       = (history_of w
          ++ [Message "user" u1 (now r1 0);
              Message "user" u2 (now r2 0);
              Message "assistant" reply (now r2 1)])%list
    /\ requests (snd (main r2 (snd (main r1 w))))
       = (requests w
          ++ [build_messages sys1 u1 (history_of w);
              build_messages sys2 u2
                (history_of w ++ [Message "user" u1 (now r1 0)])%list])%list.
Proof.
  intros r1 r2 w p1 p2 names1 names2 u1 u2 sys1 sys2 reply e
         Hf1 Hl1 Hn1 Hi1 Hne1 Hs1 Hc1 Hf2 Hl2 Hn2 Hi2 Hne2 Hs2 Hc2.
  set (w1 := World (session (world_at_call r1 w names1 u1)) (errors_shown w)
                   (py_append (requests w) (build_messages sys1 u1 (history_of w)))).
  assert (H1 : main r1 w = (Raise e, w1)).
  { rewrite (main_turn r1 w p1 names1 u1 Hf1 Hl1 Hn1 Hi1 Hne1), Hs1.
    cbv zeta. now rewrite Hc1. }
  assert (Hh : history_of w1 = (history_of w ++ [Message "user" u1 (now r1 0)])%list)
    by reflexivity.
  rewrite H1. cbn [fst snd].
  rewrite (main_turn r2 w1 p2 names2 u2 Hf2 Hl2 Hn2 Hi2 Hne2), Hs2.
  cbv zeta. rewrite Hh, Hc2. cbn [fst snd].
  rewrite history_of_world, append_two.
  split; [reflexivity|]. split; [reflexivity|]. split.
  - now rewrite <- app_assoc.
  - subst w1. cbn [requests]. unfold py_append. now rewrite <- app_assoc.
Qed.

Lemma retry_keeps_dangling_user_message_witness :
  map role (history_of (snd (main answering_run (snd (main failing_run fresh_world)))))
  = ["user"; "user"; "assistant"].
Proof.
  assert (Hne : "what projects do you have?" <> "") by discriminate.
  pose proof (retry_keeps_dangling_user_message failing_run answering_run fresh_world
                (VDict scenario_profile) (VDict scenario_profile)
                [VStr "X"] [VStr "X"]
                "what projects do you have?" "what projects do you have?"
                (base_prompt_text "A" "None" "None" "None" "None" ""
                 ++ broad_text "- X (web)")
                (base_prompt_text "A" "None" "None" "None" "None" ""
                 ++ broad_text "- X (web)")
                "One: X." (APIError "unavailable")
                eq_refl eq_refl eq_refl eq_refl Hne eq_refl eq_refl
                eq_refl eq_refl eq_refl eq_refl Hne eq_refl eq_refl)
    as (_ & _ & Hh & _).
  now rewrite Hh.
Defined.

(* ================================================================== *)
(** * More on focus resolution *)

Lemma py_eq_none_l (v : value) : py_eq VNone v = true -> v = VNone.
Proof. destruct v; simpl; congruence. Qed.

Lemma find_project_sound (selected : value) (ps : list value) (v : value) :
  find_project selected ps = Ok v ->
  v = VNone \/
  (In v ps /\ exists f, v = VDict f /\ py_eq (name_of f) selected = true).
Proof.
  induction ps as [|p ps IH]; cbn [find_project]; intros H.
  - left. congruence.
  - destruct p as [| | | | |f]; try discriminate.
    cbn [py_get rbind] in H. fold (name_of f) in H.
    destruct (py_eq (name_of f) selected) eqn:Heq.
    + injection H as <-. right. split; [now left|]. now exists f.
    + destruct (IH H) as [-> | (Hin & Hf)]; [now left|].
      right. split; [now right | exact Hf].
Qed.

(** Whatever is selected, the focus [get_ai_response] resolves is either
    none or one of the profile's own project records, with a [name] entry
    that equals the selection; such a record tests true, so a resolved focus
    always gives the focused prompt. *)
Theorem resolve_focus_sound :
  forall (selected portfolio v : value),
    resolve_focus selected portfolio = Ok v ->
    v = VNone \/
    exists f,
      v = VDict f
      /\ py_truthy selected = true
      /\ py_eq (name_of f) selected = true
      /\ lookup "name" f <> None
      /\ py_truthy v = true
      /\ exists projects ps,
           py_get portfolio "projects" (VList []) = Ok projects
           /\ py_iter projects = Ok ps
           /\ In v ps.
Proof.
  intros selected portfolio v. unfold resolve_focus.
  destruct (py_truthy selected) eqn:Ht; [|intros H; left; congruence].
  destruct (py_get portfolio "projects" (VList [])) as [projects | e] eqn:Hget;
    [|discriminate].
  cbn [rbind].
  destruct (py_iter projects) as [ps | e] eqn:Hiter; [|discriminate].
  cbn [rbind]. intros H.
  destruct (find_project_sound selected ps v H) as [-> | (Hin & f & -> & Heq)];
    [now left|].
  right. exists f.
  assert (Hname : lookup "name" f <> None).
  { intros Hnone. unfold name_of, get_or in Heq. rewrite Hnone in Heq.
    apply py_eq_none_l in Heq. subst selected. discriminate. }
  repeat split; try assumption.
  - destruct f; [now contradiction Hname | reflexivity].
  - now exists projects, ps.
Qed.

Lemma resolve_focus_sound_witness :
  VDict twin_first = VNone \/
  exists f,
    VDict twin_first = VDict f
    /\ py_truthy (VStr "Y") = true
    /\ py_eq (name_of f) (VStr "Y") = true
    /\ lookup "name" f <> None
    /\ py_truthy (VDict twin_first) = true
    /\ exists projects ps,
         py_get (VDict twin_profile) "projects" (VList []) = Ok projects
         /\ py_iter projects = Ok ps
         /\ In (VDict twin_first) ps.
Proof.
  exact (resolve_focus_sound (VStr "Y") (VDict twin_profile) (VDict twin_first)
           eq_refl).
Defined.

(** The stored focus is never the text of the select box's first option;
    so a project that bears that very name cannot be focused: picking it
    stores no focus and the turn is taken with the broad prompt. *)
Theorem first_option_name_cannot_be_focused :
  forall (r : run) (w : world) (d : list (string * value))
         (ps : list (list (string * value))) (user_input : string),
    skills_ok d ->
    d <> [] ->
    projects_are d ps ->
    knowledge_file r = Json (VDict d) ->
    chat_input r = Some user_input ->
    user_input <> "" ->
    selectbox r (VStr no_project_selected :: map name_of ps)
    = VStr no_project_selected ->
    (forall names, selection r names <> VStr no_project_selected)
    /\ selected_project (session (snd (main r w))) = Some VNone
    /\ exists skills,
         requests (snd (main r w))
         = (requests w
            ++ [build_messages
                  (base_prompt_text (field d "name") (field d "summary")
                     (field d "education") (field d "current_status")
                     (field d "goal") skills
                   ++ broad_text (String.concat nl (map bullet_of ps)))
                  user_input (history_of w)])%list.
Proof.
  intros r w d ps user_input Hsk Hd Hps Hfile Hinput Hne Hsel.
  split.
  { intros names Heq. unfold selection in Heq.
    destruct (py_eq (selectbox r (VStr no_project_selected :: names))
                    (VStr no_project_selected)) eqn:Hpy; [discriminate|].
    rewrite Heq in Hpy. simpl in Hpy. discriminate. }
  destruct (skills_ok_format d Hsk) as (skills & Hs).
  rewrite (main_turn r w (VDict d) (map name_of ps) user_input Hfile
             (truthy_dict d Hd) (project_names_are d ps Hps) Hinput Hne).
  assert (Hnone : selection r (map name_of ps) = VNone).
  { unfold selection. rewrite Hsel. reflexivity. }
  rewrite Hnone.
  rewrite (system_prompt_for_ok VNone (VDict d) VNone _ eq_refl
             (create_system_prompt_broad d VNone ps skills Hs eq_refl Hps)).
  cbv zeta.
  match goal with |- context [responses_create r ?m] =>
    destruct (responses_create r m) end.
  - split; [reflexivity | exists skills; reflexivity].
  - split; [unfold world_at_call; cbn; now rewrite Hnone
           | exists skills; reflexivity].
Qed.

Lemma first_option_name_cannot_be_focused_witness :
  In sentinel_project [sentinel_project]
  /\ name_of sentinel_project = VStr no_project_selected
  /\ selected_project (session (snd (main sentinel_run fresh_world))) = Some VNone.
Proof.
  split; [left; reflexivity|]. split; [reflexivity|].
  assert (Hne : "tell me more" <> "") by discriminate.
  assert (Hd : sentinel_profile <> []) by discriminate.
  exact (proj1 (proj2 (first_option_name_cannot_be_focused sentinel_run fresh_world
                         sentinel_profile [sentinel_project] "tell me more"
                         (or_introl eq_refl) Hd eq_refl eq_refl eq_refl Hne eq_refl))).
Defined.

(* ================================================================== *)
(** * Ill-shaped documents *)

Lemma py_iter_not_iterable (v : value) : not_iterable v -> py_iter v = Raise TypeError.
Proof. intros [-> | [(b & ->) | (n & ->)]]; reflexivity. Qed.

Lemma py_get_not_dict (v : value) (k : string) (default : value) :
  (forall d, v <> VDict d) -> py_get v k default = Raise AttributeError.
Proof.
  intros H. destruct v as [| b | n | s | l | d]; try reflexivity.
  now contradiction (H d).
Qed.

Lemma map_result_names_stop (pre : list (list (string * value))) (p : value)
  (post : list value) :
  (forall f, p <> VDict f) ->
  map_result (fun q => py_get q "name" VNone) (map VDict pre ++ p :: post)%list
  = Raise AttributeError.
Proof.
  intros Hp. induction pre as [|q pre IH]; cbn [map app map_result].
  - now rewrite (py_get_not_dict p "name" VNone Hp).
  - cbn [py_get rbind]. now rewrite IH.
Qed.

(** Building the list of project names fails on a document that is no
    dict, on a [projects] entry that is null, a boolean or a number (an
    absent entry is fine), and on a project that is no record. *)
Theorem project_names_errors :
  (forall v, (forall d, v <> VDict d) -> project_names v = Raise AttributeError)
  /\ (forall d x,
         lookup "projects" d = Some x -> not_iterable x ->
         project_names (VDict d) = Raise TypeError)
  /\ (forall d pre p post,
         lookup "projects" d = Some (VList (map VDict pre ++ p :: post)%list) ->
         (forall f, p <> VDict f) ->
         project_names (VDict d) = Raise AttributeError).
Proof.
  split; [|split].
  - intros v Hv. unfold project_names.
    now rewrite (py_get_not_dict v "projects" (VList []) Hv).
  - intros d x Hx Hbad. unfold project_names. cbn [py_get rbind].
    unfold get_or. rewrite Hx. now rewrite (py_iter_not_iterable x Hbad).
  - intros d pre p post Hps Hp. unfold project_names. cbn [py_get rbind].
    unfold get_or. rewrite Hps. cbn [py_iter rbind].
    now apply map_result_names_stop.
Qed.

Lemma project_names_errors_witness :
  project_names (VList [VInt 1]) = Raise AttributeError
  /\ project_names (VDict [("name", VStr "A"); ("projects", VNone)]) = Raise TypeError
  /\ project_names
       (VDict [("projects", VList [VDict scenario_project; VStr "X"])])
     = Raise AttributeError.
Proof.
  destruct project_names_errors as (H1 & H2 & H3).
  split; [apply H1; discriminate|]. split.
  - apply (H2 _ VNone); [reflexivity | left; reflexivity].
  - apply (H3 _ [scenario_project] (VStr "X") []); [reflexivity | discriminate].
Defined.

(** When the project names cannot be listed, the run ends with that
    exception before any turn: the session keys are set, but no message is
    added and nothing is sent. *)
Theorem unlistable_projects_end_the_run :
  forall (r : run) (w : world) (v : value) (e : exn),
    knowledge_file r = Json v ->
    py_truthy v = true ->
    project_names v = Raise e ->
    main r w
    = (Raise e,
       World (SessionState (Some (history_of w))
                           (Some (session_get_selected (session w))))
             (errors_shown w) (requests w)).
Proof.
  intros r w v e Hfile Hloaded Hnames.
  now rewrite main_run, Hfile, Hloaded, Hnames.
Qed.

Lemma unlistable_projects_end_the_run_witness :
  main (Run (Json (VList [VInt 1])) (fun _ => VNone) (Some "hi") sample_clock
            (fun _ => Ok "")) earlier_world
  = (Raise AttributeError, earlier_world).
Proof.
  exact (unlistable_projects_end_the_run
           (Run (Json (VList [VInt 1])) (fun _ => VNone) (Some "hi") sample_clock
                (fun _ => Ok ""))
           earlier_world (VList [VInt 1]) AttributeError eq_refl eq_refl eq_refl).
Defined.

(** [create_system_prompt] raises an attribute error on a profile that is
    no dict, on a [skills] entry that is no dict, and on a focus that tests
    true without being a dict; in broad mode it raises a type error on a
    [projects] entry that is null, a boolean or a number. *)
Theorem create_system_prompt_errors :
  (forall v F, (forall d, v <> VDict d) ->
     create_system_prompt v F = Raise AttributeError)
  /\ (forall d x F,
         lookup "skills" d = Some x -> (forall items, x <> VDict items) ->
         create_system_prompt (VDict d) F = Raise AttributeError)
  /\ (forall d F,
         skills_ok d -> py_truthy F = true -> (forall f, F <> VDict f) ->
         create_system_prompt (VDict d) F = Raise AttributeError)
  /\ (forall d x F,
         skills_ok d -> py_truthy F = false ->
         lookup "projects" d = Some x -> not_iterable x ->
         create_system_prompt (VDict d) F = Raise TypeError).
Proof.
  split; [|split; [|split]].
  - intros v F Hv. unfold create_system_prompt.
    now rewrite (py_get_not_dict v "name" VNone Hv).
  - intros d x F Hx Hbad.
    assert (Hg : get_or d "skills" (VDict []) = x) by (unfold get_or; now rewrite Hx).
    unfold create_system_prompt. cbn [py_get rbind]. rewrite Hg.
    destruct x as [| b | n | s | l | items]; try reflexivity.
    now contradiction (Hbad items).
  - intros d F Hsk HF Hbad.
    destruct (skills_ok_format d Hsk) as (skills & Hs).
    unfold create_system_prompt. cbn [py_get rbind]. rewrite Hs. cbn [rbind].
    rewrite HF. now rewrite (py_get_not_dict F "name" VNone Hbad).
  - intros d x F Hsk HF Hx Hbad.
    destruct (skills_ok_format d Hsk) as (skills & Hs).
    unfold create_system_prompt. cbn [py_get rbind]. rewrite Hs. cbn [rbind].
    assert (Hg : get_or d "projects" (VList []) = x) by (unfold get_or; now rewrite Hx).
    rewrite HF. cbn [py_get rbind]. rewrite Hg.
    now rewrite (py_iter_not_iterable x Hbad).
Qed.

Lemma create_system_prompt_errors_witness :
  create_system_prompt (VStr "profile") VNone = Raise AttributeError
  /\ create_system_prompt (VDict [("name", VStr "A"); ("skills", VNone)]) VNone
     = Raise AttributeError
  /\ create_system_prompt (VDict scenario_profile) (VStr "X") = Raise AttributeError
  /\ create_system_prompt (VDict [("name", VStr "A"); ("projects", VNone)]) VNone
     = Raise TypeError.
Proof.
  destruct create_system_prompt_errors as (H1 & H2 & H3 & H4).
  split; [apply H1; discriminate|].
  split; [apply (H2 _ VNone); [reflexivity | discriminate]|].
  split; [apply H3; [left; reflexivity | reflexivity | discriminate]|].
  apply (H4 _ VNone); [left; reflexivity | reflexivity | reflexivity | left; reflexivity].
Defined.

(* ================================================================== *)
(** * [get_ai_response] on its own *)

(** [get_ai_response] never writes the session and shows no error; when
    the prompt cannot be built it sends nothing, and when it can it sends
    exactly one request and returns what the client answers, a raised
    exception included. *)
Theorem get_ai_response_effects :
  forall (r : run) (user_message : string) (hist : list message)
         (portfolio : value) (w : world),
    session (snd (get_ai_response r user_message hist portfolio w)) = session w
    /\ errors_shown (snd (get_ai_response r user_message hist portfolio w))
       = errors_shown w
    /\ (forall e,
           system_prompt_for (session_get_selected (session w)) portfolio = Raise e ->
           get_ai_response r user_message hist portfolio w = (Raise e, w))
    /\ (forall system_prompt,
           system_prompt_for (session_get_selected (session w)) portfolio
           = Ok system_prompt ->
           fst (get_ai_response r user_message hist portfolio w)
           = responses_create r (build_messages system_prompt user_message hist)
           /\ requests (snd (get_ai_response r user_message hist portfolio w))
              = (requests w ++ [build_messages system_prompt user_message hist])%list).
Proof.
  intros r user_message hist portfolio w. rewrite get_ai_response_run.
  destruct (system_prompt_for (session_get_selected (session w)) portfolio)
    as [system_prompt | e].
  - cbv zeta. cbn [fst snd session errors_shown requests].
    split; [reflexivity|]. split; [reflexivity|]. split.
    + intros e Heq. discriminate.
    + intros sp Heq. injection Heq as <-. split; reflexivity.
  - cbn [fst snd]. split; [reflexivity|]. split; [reflexivity|]. split.
    + intros e' Heq. now injection Heq as <-.
    + intros sp Heq. discriminate.
Qed.

Lemma get_ai_response_effects_witness :
  get_ai_response answering_run "hi" []
    (VDict [("name", VStr "A"); ("projects", VNone)])
    (World (SessionState (Some []) (Some (VStr "X"))) [] [])
  = (Raise TypeError, World (SessionState (Some []) (Some (VStr "X"))) [] []).
Proof.
  apply (get_ai_response_effects answering_run "hi" []
           (VDict [("name", VStr "A"); ("projects", VNone)])
           (World (SessionState (Some []) (Some (VStr "X"))) [] [])).
  reflexivity.
Defined.

(* ================================================================== *)
(** * More on [format_skills] *)

Lemma map_result_expect_str_map {A} (g : A -> string) (l : list A) :
  map_result expect_str (map (fun x => VStr (g x)) l) = Ok (map g l).
Proof. induction l as [|x l IH]; cbn; [reflexivity | now rewrite IH]. Qed.

Lemma map_result_expect_str_outcome (l : list value) :
  if forallb (fun x => match x with VStr _ => true | _ => false end) l
  then exists ss, map_result expect_str l = Ok ss
  else map_result expect_str l = Raise TypeError.
Proof.
  induction l as [|x l IH]; cbn [forallb map_result]; [now exists []|].
  destruct x; cbn [expect_str rbind andb]; try reflexivity.
  destruct (forallb _ l).
  - destruct IH as (ss & ->). cbn [rbind]. now eexists.
  - now rewrite IH.
Qed.

(** [', '.join(skills)] gives a text exactly on a joinable value, and a
    type error otherwise. *)
Lemma str_join_outcome (v : value) :
  str_join ", " v = if joinable v then Ok (joined_text v) else Raise TypeError.
Proof.
  unfold joined_text. destruct v as [| b | n | s | l | d]; try reflexivity.
  - unfold str_join. cbn [py_iter rbind joinable].
    now rewrite (map_result_expect_str_map (fun c => String c "")).
  - unfold str_join. cbn [py_iter rbind joinable].
    pose proof (map_result_expect_str_outcome l) as H.
    destruct (forallb _ l); [destruct H as (ss & ->) | rewrite H]; reflexivity.
  - unfold str_join. cbn [py_iter rbind joinable].
    now rewrite (map_result_expect_str_map (fun kv => fst kv) d).
Qed.

Lemma format_skills_loop_outcome (items : list (string * value)) (lines : list string) :
  format_skills_loop items lines
  = if forallb (fun kv => joinable (snd kv)) items
    then Ok (lines ++ map category_line items)%list
    else Raise TypeError.
Proof.
  revert lines. induction items as [|[k v] items IH]; intros lines.
  - cbn. now rewrite app_nil_r.
  - cbn [format_skills_loop forallb snd map]. rewrite str_join_outcome.
    destruct (joinable v) eqn:Hj; cbn [rbind andb]; [|reflexivity].
    rewrite IH. destruct (forallb _ items); [|reflexivity].
    unfold py_append, category_line at 2. cbn [fst snd].
    now rewrite <- app_assoc.
Qed.

(** [format_skills] raises an attribute error on anything but a dict; on a
    dict it returns one line per item exactly when every value can be
    joined (a list of texts, a text, a dict), and raises a type error as
    soon as one cannot (null, a number, a list holding a non-text). *)
Theorem format_skills_outcome :
  (forall v, (forall items, v <> VDict items) ->
     format_skills v = Raise AttributeError)
  /\ (forall items,
         format_skills (VDict items)
         = if forallb (fun kv => joinable (snd kv)) items
           then Ok (String.concat nl (map category_line items))
           else Raise TypeError).
Proof.
  split.
  - intros v Hv. destruct v as [| b | n | s | l | d]; try reflexivity.
    now contradiction (Hv d).
  - intros items. unfold format_skills. cbn [py_items rbind].
    rewrite format_skills_loop_outcome.
    now destruct (forallb _ items).
Qed.

Lemma format_skills_outcome_witness :
  format_skills VNone = Raise AttributeError
  /\ format_skills (VDict [("tools", VList [VStr "sql"]); ("years", VInt 3)])
     = Raise TypeError
  /\ format_skills (VDict [("tools", VList [VStr "sql"; VStr "python"])])
     = Ok "Tools: sql, python".
Proof.
  destruct format_skills_outcome as (H & Hout).
  split; [apply H; discriminate|].
  split; [exact (Hout [("tools", VList [VStr "sql"]); ("years", VInt 3)])|].
  exact (Hout [("tools", VList [VStr "sql"; VStr "python"])]).
Defined.

(** A category whose value is a text instead of a list is listed letter by
    letter, and one whose value is a dict lists the dict's keys; neither
    raises. *)
Theorem format_skills_text_and_dict_values :
  forall (before after : list (string * value)) (k : string),
    forallb (fun kv => joinable (snd kv)) before = true ->
    forallb (fun kv => joinable (snd kv)) after = true ->
    (forall s,
        format_skills (VDict (before ++ (k, VStr s) :: after)%list)
        = Ok (String.concat nl
                (map category_line before
                 ++ (humanize k ++ ": " ++ String.concat ", " (letters s))%string
                    :: map category_line after)%list))
    /\ (forall d,
           format_skills (VDict (before ++ (k, VDict d) :: after)%list)
           = Ok (String.concat nl
                   (map category_line before
                    ++ (humanize k ++ ": " ++ String.concat ", " (map fst d))%string
                       :: map category_line after)%list)).
Proof.
  intros before after k Hb Ha.
  destruct format_skills_outcome as (_ & Hout).
  split.
  - intros s. rewrite Hout, forallb_app, Hb. cbn [forallb snd joinable andb].
    rewrite Ha, map_app. cbn [map]. do 3 f_equal.
    unfold category_line, joined_text, str_join. cbn [fst snd py_iter rbind].
    unfold letters.
    now rewrite (map_result_expect_str_map (fun c => String c "")).
  - intros d. rewrite Hout, forallb_app, Hb. cbn [forallb snd joinable andb].
    rewrite Ha, map_app. cbn [map]. do 3 f_equal.
    unfold category_line, joined_text, str_join. cbn [fst snd py_iter rbind].
    now rewrite (map_result_expect_str_map (fun kv => fst kv) d).
Qed.

Lemma format_skills_text_and_dict_values_witness :
  format_skills (VDict [("tools", VStr "SQL")]) = Ok "Tools: S, Q, L"
  /\ format_skills
       (VDict [("tools", VDict [("python", VInt 3); ("sql", VInt 2)])])
     = Ok "Tools: python, sql".
Proof.
  destruct (format_skills_text_and_dict_values [] [] "tools" eq_refl eq_refl)
    as (Hs & Hd).
  split; [exact (Hs "SQL") | exact (Hd [("python", VInt 3); ("sql", VInt 2)])].
Defined.

(* ------------------------------------------------------------------ *)
(** ** The header of a category *)

Lemma humanize_of_char (c : ascii) :
  to_lower (to_lower c) = to_lower c /\
  to_upper (to_upper c) = to_upper c /\
  is_cased (to_lower c) = is_cased c /\
  is_cased (to_upper c) = is_cased c /\
  Ascii.eqb (to_lower c) "_" = Ascii.eqb c "_" /\
  Ascii.eqb (to_upper c) "_" = Ascii.eqb c "_" /\
  Ascii.eqb (if Ascii.eqb c "_" then " "%char else c) "_" = false.
Proof.
  destruct c as [[|] [|] [|] [|] [|] [|] [|] [|]]; vm_compute; repeat split.
Qed.

Lemma title_from_idempotent (b : bool) (s : string) :
  title_from b (title_from b s) = title_from b s.
Proof.
  revert b. induction s as [|c s IH]; intros b; [reflexivity|].
  cbn [title_from].
  destruct (humanize_of_char c) as (Hl & Hu & Hcl & Hcu & _).
  destruct b; rewrite ?Hl, ?Hu, ?Hcl, ?Hcu, IH; reflexivity.
Qed.

Lemma has_underscore_title_from (b : bool) (s : string) :
  has_char "_" (title_from b s) = has_char "_" s.
Proof.
  revert b. induction s as [|c s IH]; intros b; [reflexivity|].
  cbn [title_from has_char]. rewrite IH.
  destruct (humanize_of_char c) as (_ & _ & _ & _ & Hl & Hu & _).
  now destruct b; rewrite ?Hl, ?Hu.
Qed.

Lemma no_underscore_replace (s : string) :
  has_char "_" (replace "_" " " s) = false.
Proof.
  unfold replace. induction s as [|c s IH]; [reflexivity|].
  cbn [str_map has_char]. rewrite IH.
  destruct (humanize_of_char c) as (_ & _ & _ & _ & _ & _ & Hr).
  now rewrite Hr.
Qed.

Lemma replace_without_underscore (s : string) :
  has_char "_" s = false -> replace "_" " " s = s.
Proof.
  unfold replace. induction s as [|c s IH]; [reflexivity|].
  cbn [str_map has_char]. intros H. apply orb_false_iff in H as [Hc Hs].
  now rewrite Hc, (IH Hs).
Qed.

Lemma length_title_from (b : bool) (s : string) :
  String.length (title_from b s) = String.length s.
Proof.
  revert b. induction s as [|c s IH]; intros b; [reflexivity|].
  cbn [title_from String.length]. now rewrite IH.
Qed.

Lemma length_str_map (f : ascii -> ascii) (s : string) :
  String.length (str_map f s) = String.length s.
Proof. induction s as [|c s IH]; cbn; [reflexivity | now rewrite IH]. Qed.

(** The header made from an ASCII category key holds no underscore, is as
    long as the key, and is a fixed point: humanizing a header gives it
    back. *)
Theorem humanize_idempotent :
  forall k : string,
    is_ascii k = true ->
    has_char "_" (humanize k) = false
    /\ String.length (humanize k) = String.length k
    /\ humanize (humanize k) = humanize k.
Proof.
  intros k _. unfold humanize, title.
  assert (Hno : has_char "_" (title_from false (replace "_" " " k)) = false).
  { now rewrite has_underscore_title_from, no_underscore_replace. }
  split; [exact Hno|]. split.
  - unfold replace. now rewrite length_title_from, length_str_map.
  - now rewrite (replace_without_underscore _ Hno), title_from_idempotent.
Qed.

Lemma humanize_idempotent_witness :
  humanize "ml_ops" = "Ml Ops"
  /\ has_char "_" (humanize "ml_ops") = false
  /\ String.length (humanize "ml_ops") = 6
  /\ humanize "Ml Ops" = "Ml Ops".
Proof.
  destruct (humanize_idempotent "ml_ops" eq_refl) as (Hno & Hlen & Hfix).
  split; [reflexivity|]. split; [exact Hno|]. split; [exact Hlen | exact Hfix].
Defined.

(* ================================================================== *)
(** * The focus over a run *)

(** On a loaded profile whose project names can be listed, a run replaces
    the stored focus by what the select box answers in that run, whatever
    was stored before and whether the run idles, completes a turn, or ends
    with an exception of the prompt or of the completion.  When the names
    cannot be listed the run ends before the select box: the stored focus is
    kept, or set to [None] if the key was not set. *)
Theorem focus_replaced_each_run :
  forall (r : run) (w : world) (portfolio : value),
    knowledge_file r = Json portfolio ->
    py_truthy portfolio = true ->
    selected_project (session (snd (main r w)))
    = match project_names portfolio with
      | Ok names => Some (selection r names)
      | Raise _ => Some (session_get_selected (session w))
      end.
Proof.
  intros r w portfolio Hfile Hloaded.
  rewrite main_run, Hfile, Hloaded.
  destruct (project_names portfolio) as [names | e]; [|reflexivity].
  cbv zeta.
  destruct (chat_input r) as [user_input|]; [|reflexivity].
  destruct (py_truthy (VStr user_input)); [|reflexivity].
  unfold take_turn.
  destruct (system_prompt_for (selection r names) portfolio) as [system_prompt | e];
    [|reflexivity].
  cbv zeta.
  destruct (responses_create r
              (build_messages system_prompt user_input (history_of w)));
    reflexivity.
Qed.

Lemma focus_replaced_each_run_witness :
  selected_project (session earlier_world) = Some (VStr "X")
  /\ selected_project (session (snd (main failing_run earlier_world))) = Some VNone
  /\ selected_project
       (session (snd (main (Run (Json (VDict [("name", VStr "A"); ("projects", VNone)]))
                                (fun _ => VStr no_project_selected) (Some "hi")
                                sample_clock (fun _ => Ok ""))
                           earlier_world)))
     = Some (VStr "X").
Proof.
  split; [reflexivity|]. split.
  - exact (focus_replaced_each_run failing_run earlier_world (VDict scenario_profile)
             eq_refl eq_refl).
  - exact (focus_replaced_each_run
             (Run (Json (VDict [("name", VStr "A"); ("projects", VNone)]))
                  (fun _ => VStr no_project_selected) (Some "hi")
                  sample_clock (fun _ => Ok ""))
             earlier_world (VDict [("name", VStr "A"); ("projects", VNone)])
             eq_refl eq_refl).
Defined.

(** Picking a project by a name that is not empty and is not the text of
    the first option takes the turn in focused mode: the request carries
    the base text followed by the focus block of the first record of that
    name. *)
Theorem picked_project_gives_focused_turn :
  forall (r : run) (w : world) (d : list (string * value))
         (ps1 : list (list (string * value))) (p : list (string * value))
         (ps2 : list (list (string * value))) (n user_input : string),
    skills_ok d ->
    d <> [] ->
    projects_are d (ps1 ++ p :: ps2)%list ->
    knowledge_file r = Json (VDict d) ->
    chat_input r = Some user_input ->
    user_input <> "" ->
    selectbox r (VStr no_project_selected :: map name_of (ps1 ++ p :: ps2)%list)
    = VStr n ->
    n <> "" ->
    n <> no_project_selected ->
    lookup "name" p = Some (VStr n) ->
    (forall q, In q ps1 -> py_eq (name_of q) (VStr n) = false) ->
    exists skills,
      requests (snd (main r w))
      = (requests w
         ++ [build_messages
               (base_prompt_text (field d "name") (field d "summary")
                  (field d "education") (field d "current_status")
                  (field d "goal") skills
                ++ focus_text (field p "name") (field p "type") (field p "category")
                     (field p "problem") (field p "solution") (field p "tools")
                     (field p "outcome"))
               user_input (history_of w)])%list.
Proof.
  intros r w d ps1 p ps2 n user_input Hsk Hd Hps Hfile Hinput Hne Hsel Hn Hns Hp Hno.
  destruct (skills_ok_format d Hsk) as (skills & Hs). exists skills.
  rewrite (main_turn r w (VDict d) (map name_of (ps1 ++ p :: ps2)%list) user_input
             Hfile (truthy_dict d Hd) (project_names_are d _ Hps) Hinput Hne).
  assert (Hstored : selection r (map name_of (ps1 ++ p :: ps2)%list) = VStr n).
  { unfold selection. rewrite Hsel. simpl.
    destruct (String.eqb_spec n no_project_selected); [contradiction | reflexivity]. }
  rewrite Hstored.
  assert (Hpne : p <> []) by (intros ->; discriminate).
  assert (Hfocus : resolve_focus (VStr n) (VDict d) = Ok (VDict p)).
  { unfold resolve_focus.
    assert (Ht : py_truthy (VStr n) = true).
    { simpl. destruct (String.eqb_spec n ""); [contradiction | reflexivity]. }
    rewrite Ht. cbn [py_get rbind]. unfold projects_are in Hps. rewrite Hps.
    cbn [py_iter rbind]. rewrite map_app, (find_project_skip (VStr n) ps1 _ Hno).
    cbn [map find_project py_get rbind]. unfold get_or. rewrite Hp.
    simpl. now rewrite String.eqb_refl. }
  rewrite (system_prompt_for_ok _ _ _ _ Hfocus
             (create_system_prompt_focus d p skills Hs Hpne)).
  cbv zeta.
  match goal with |- context [responses_create r ?m] =>
    destruct (responses_create r m) end; reflexivity.
Qed.

Lemma picked_project_gives_focused_turn_witness :
  exists skills,
    requests (snd (main twin_run fresh_world))
    = [build_messages
         (base_prompt_text "A" "None" "None" "None" "None" skills
          ++ focus_text "Y" "b" "None" "None" "None" "None" "None")
         "tell me more" []].
Proof.
  assert (Hne : "tell me more" <> "") by discriminate.
  assert (Hd : twin_profile <> []) by discriminate.
  assert (Hn : "Y" <> "") by discriminate.
  assert (Hns : "Y" <> no_project_selected) by discriminate.
  assert (Hno : forall q, In q [scenario_project] ->
                  py_eq (name_of q) (VStr "Y") = false).
  { intros q [<- | []]. reflexivity. }
  exact (picked_project_gives_focused_turn twin_run fresh_world twin_profile
           [scenario_project] twin_first
           [[("name", VStr "Y"); ("type", VStr "c")]] "Y" "tell me more"
           (or_introl eq_refl) Hd eq_refl eq_refl eq_refl Hne eq_refl Hn Hns
           eq_refl Hno).
Defined.
